(** * Scheduling assistant: rule-based extraction of tasks from a prompt

    A shallow embedding of the three variants of the scheduler
    ([main.py], [main_gemini.py], [src/main_geminiy.py]) and the properties
    of their date resolver, end-time calculators, external-hint normaliser
    and schedule orchestrator.

    Conventions of the embedding.
    - A Python [str] is a Rocq [string]; one [ascii] stands for one code
      point below 256.  The character predicates below follow CPython's
      tables on that range.
    - [datetime.now()] is the explicit parameter [today].
    - An exception is a value of [exn]; a function that may raise returns
      [res A].
    - The network call of the analyser is an oracle: the outcome of the
      call made at each attempt.
    - [int] is the mathematical conversion: the interpreter's optional limit
      on the number of digits of an integer literal is not part of the
      model.
    - [%Y] of [strftime] is the year on four digits, as the library
      documents it.
    - The analysis dictionary is read at the keys the program reads, with
      values of the types the analyser's prompt asks for (strings, a number
      for the duration). *)

From Stdlib Require Import ZArith Bool List Lia.
From Stdlib Require Import Strings.Ascii Strings.String Numbers.DecimalString.
Import ListNotations.

Open Scope string_scope.
Open Scope Z_scope.

(** ** Python strings *)

Module PyStr.

Definition code (c : ascii) : Z := Z.of_nat (nat_of_ascii c).

Definition in_range (lo hi : Z) (c : ascii) : bool :=
  (lo <=? code c) && (code c <=? hi).

(** [str.isspace] on one code point (also what [\s], [str.split()] and
    [int()] use). *)
Definition is_space (c : ascii) : bool :=
  in_range 9 13 c || in_range 28 32 c || (code c =? 133) || (code c =? 160).

(** [\d]: decimal digits. *)
Definition is_digit (c : ascii) : bool := in_range 48 57 c.

Definition is_upper_ascii (c : ascii) : bool := in_range 65 90 c.
Definition is_lower_ascii (c : ascii) : bool := in_range 97 122 c.

(** [\w]: alphanumeric code points and the underscore. *)
Definition is_word (c : ascii) : bool :=
  is_digit c || is_upper_ascii c || is_lower_ascii c || (code c =? 95)
  || (code c =? 170) || (code c =? 178) || (code c =? 179) || (code c =? 181)
  || (code c =? 185) || (code c =? 186) || in_range 188 190 c
  || in_range 192 214 c || in_range 216 246 c || in_range 248 255 c.

Definition shift (c : ascii) (d : Z) : ascii :=
  ascii_of_nat (Z.to_nat (code c + d)).

(** [str.lower] on one code point. *)
Definition lower_char (c : ascii) : ascii :=
  if is_upper_ascii c || in_range 192 214 c || in_range 216 222 c
  then shift c 32 else c.

(** [str.upper] on one code point; 181 and 255 have their upper case above
    255 and 223 has a two-letter one, the callers never reach them. *)
Definition upper_char (c : ascii) : ascii :=
  if is_lower_ascii c || in_range 224 246 c || in_range 248 254 c
  then shift c (-32) else c.

Fixpoint map_str (f : ascii -> ascii) (s : string) : string :=
  match s with
  | EmptyString => EmptyString
  | String c s' => String (f c) (map_str f s')
  end.

Definition lower (s : string) : string := map_str lower_char s.
Definition upper (s : string) : string := map_str upper_char s.

(** [str.capitalize]: first character upper-cased, the rest lower-cased. *)
Definition capitalize (s : string) : string :=
  match s with
  | EmptyString => EmptyString
  | String c s' => String (upper_char c) (lower s')
  end.

(** [needle in s]. *)
Fixpoint contains (needle s : string) : bool :=
  prefix needle s ||
  match s with
  | EmptyString => false
  | String _ s' => contains needle s'
  end.

(** [s.split()]: maximal runs of non-space characters.  [cur] is the word
    being read, reversed. *)
Fixpoint rev_str (s acc : string) : string :=
  match s with
  | EmptyString => acc
  | String c s' => rev_str s' (String c acc)
  end.

Fixpoint split_ws_aux (s : string) (cur : string) : list string :=
  match s with
  | EmptyString =>
      match cur with EmptyString => [] | _ => [rev_str cur ""] end
  | String c s' =>
      if is_space c then
        match cur with
        | EmptyString => split_ws_aux s' ""
        | _ => rev_str cur "" :: split_ws_aux s' ""
        end
      else split_ws_aux s' (String c cur)
  end.

Definition split_ws (s : string) : list string := split_ws_aux s "".

(** [s.split(sep)] for a one-character separator: always at least one
    field. *)
Fixpoint split_on_aux (sep : ascii) (s : string) (cur : string) : list string :=
  match s with
  | EmptyString => [rev_str cur ""]
  | String c s' =>
      if Ascii.eqb c sep then rev_str cur "" :: split_on_aux sep s' ""
      else split_on_aux sep s' (String c cur)
  end.

Definition split_on (sep : ascii) (s : string) : list string :=
  split_on_aux sep s "".

(** [" ".join(ws)]. *)
Fixpoint join_sp (ws : list string) : string :=
  match ws with
  | [] => ""
  | [w] => w
  | w :: ws' => w ++ " " ++ join_sp ws'
  end.

(** [str(n)] and [f"{n}"] for an integer. *)
Definition str_of_Z (n : Z) : string := NilZero.string_of_int (Z.to_int n).

Fixpoint zeros (n : nat) : string :=
  match n with O => "" | S n' => String "0" (zeros n') end.

(** [f"{n:02d}"]: the sign counts in the width and comes before the
    padding. *)
Definition fmt02 (n : Z) : string :=
  if n <? 0 then
    let d := str_of_Z (- n) in "-" ++ zeros (1 - String.length d) ++ d
  else
    let d := str_of_Z n in zeros (2 - String.length d) ++ d.

(** [f"{n:04d}"], the shape of [%Y] in the documentation of [strftime]. *)
Definition fmt04 (n : Z) : string :=
  if n <? 0 then
    let d := str_of_Z (- n) in "-" ++ zeros (3 - String.length d) ++ d
  else
    let d := str_of_Z n in zeros (4 - String.length d) ++ d.

(** [s.zfill(2)]; a leading sign stays in front. *)
Definition zfill2 (s : string) : string :=
  match s with
  | String c s' =>
      if Ascii.eqb c "+" || Ascii.eqb c "-"
      then String c (zeros (1 - String.length s') ++ s')
      else zeros (2 - String.length s) ++ s
  | EmptyString => "00"
  end.

(** [int(s)]: surrounding white space is dropped, one sign is allowed, the
    digits may be separated by single underscores.  [None] is
    [ValueError]. *)
Fixpoint lstrip (s : string) : string :=
  match s with
  | String c s' => if is_space c then lstrip s' else s
  | EmptyString => EmptyString
  end.

Definition strip (s : string) : string :=
  rev_str (lstrip (rev_str (lstrip s) "")) "".

Definition digit_val (c : ascii) : Z := code c - 48.

(** [after_digit] tells whether the previous character was a digit, the
    only place where an underscore or the end may stand. *)
Fixpoint int_digits (s : string) (acc : Z) (after_digit : bool) : option Z :=
  match s with
  | EmptyString => if after_digit then Some acc else None
  | String c s' =>
      if is_digit c then int_digits s' (10 * acc + digit_val c) true
      else if Ascii.eqb c "_" && after_digit then
        match s' with
        | String d _ => if is_digit d then int_digits s' acc false else None
        | EmptyString => None
        end
      else None
  end.

Definition int_of_str (s : string) : option Z :=
  match strip s with
  | String c s' =>
      if Ascii.eqb c "-" then option_map Z.opp (int_digits s' 0 false)
      else if Ascii.eqb c "+" then int_digits s' 0 false
      else int_digits (String c s') 0 false
  | EmptyString => None
  end.

End PyStr.

(** ** Regular expressions, as [re.search] runs them

    A backtracking matcher in continuation-passing style.  Repetition is
    only ever applied to a single character class in the patterns of the
    program, so [Rep] carries a class. *)

Module Re.

Inductive cclass :=
| CDigit                 (* \d *)
| CWord                  (* \w *)
| CSpace                 (* \s *)
| CAny                   (* .  : anything but a newline *)
| COneOf (cs : string).  (* [...] *)

Fixpoint mem_char (c : ascii) (cs : string) : bool :=
  match cs with
  | EmptyString => false
  | String x cs' => Ascii.eqb c x || mem_char c cs'
  end.

Definition cmatch (cc : cclass) (c : ascii) : bool :=
  match cc with
  | CDigit => PyStr.is_digit c
  | CWord => PyStr.is_word c
  | CSpace => PyStr.is_space c
  | CAny => negb (PyStr.code c =? 10)
  | COneOf cs => mem_char c cs
  end.

Inductive regex :=
| Eps
| Chr (c : ascii)
| Cls (cc : cclass)
| Seq (r1 r2 : regex)
| Alt (r1 r2 : regex)
| Opt (r : regex)                                          (* r?  *)
| Rep (greedy : bool) (lo : nat) (hi : option nat) (cc : cclass)
| Grp (n : nat) (r : regex).                               (* (r) *)

(** A literal word. *)
Fixpoint Lit (s : string) : regex :=
  match s with
  | EmptyString => Eps
  | String c EmptyString => Chr c
  | String c s' => Seq (Chr c) (Lit s')
  end.

Fixpoint seqs (rs : list regex) : regex :=
  match rs with
  | [] => Eps
  | [r] => r
  | r :: rs' => Seq r (seqs rs')
  end.

Fixpoint alts (rs : list regex) : regex :=
  match rs with
  | [] => Eps
  | [r] => r
  | r :: rs' => Alt r (alts rs')
  end.

Definition star (cc : cclass) : regex := Rep true 0 None cc.
Definition plus (cc : cclass) : regex := Rep true 1 None cc.
Definition lazy_star (cc : cclass) : regex := Rep false 0 None cc.
Definition between (lo hi : nat) (cc : cclass) : regex := Rep true lo (Some hi) cc.

(** Captures: the latest binding of a group number comes first. *)
Definition caps := list (nat * string).

Fixpoint group (cs : caps) (n : nat) : option string :=
  match cs with
  | [] => None
  | (k, v) :: cs' => if Nat.eqb k n then Some v else group cs' n
  end.

(** With [re.IGNORECASE] a letter of the pattern matches both cases. *)
Definition chr_eq (ic : bool) (p x : ascii) : bool :=
  if ic then Ascii.eqb (PyStr.lower_char x) (PyStr.lower_char p)
  else Ascii.eqb x p.

Definition room (hi : option nat) : bool :=
  match hi with Some O => false | _ => true end.

Definition less (hi : option nat) : option nat := option_map Nat.pred hi.

Section Matcher.
Context {A : Type}.

(** [cc{lo,hi}], greedy: take as many as possible, give back one by one. *)
Fixpoint rep_greedy (p : ascii -> bool) (lo : nat) (hi : option nat)
    (s : string) (k : string -> option A) : option A :=
  let stop := if Nat.eqb lo 0 then k s else None in
  match s with
  | String c s' =>
      if p c && room hi then
        match rep_greedy p (Nat.pred lo) (less hi) s' k with
        | Some v => Some v
        | None => stop
        end
      else stop
  | EmptyString => stop
  end.

(** [cc{lo,hi}?], lazy: take as few as possible. *)
Fixpoint rep_lazy (p : ascii -> bool) (lo : nat) (hi : option nat)
    (s : string) (k : string -> option A) : option A :=
  match (if Nat.eqb lo 0 then k s else None) with
  | Some v => Some v
  | None =>
      match s with
      | String c s' =>
          if p c && room hi then rep_lazy p (Nat.pred lo) (less hi) s' k
          else None
      | EmptyString => None
      end
  end.

(** The text consumed between [s] and its suffix [s']. *)
Definition consumed (s s' : string) : string :=
  substring 0 (String.length s - String.length s') s.

Fixpoint run (ic : bool) (r : regex) (s : string) (cs : caps)
    (k : string -> caps -> option A) : option A :=
  match r with
  | Eps => k s cs
  | Chr c =>
      match s with
      | String x s' => if chr_eq ic c x then k s' cs else None
      | EmptyString => None
      end
  | Cls cc =>
      match s with
      | String x s' => if cmatch cc x then k s' cs else None
      | EmptyString => None
      end
  | Seq r1 r2 => run ic r1 s cs (fun s1 cs1 => run ic r2 s1 cs1 k)
  | Alt r1 r2 =>
      match run ic r1 s cs k with
      | Some v => Some v
      | None => run ic r2 s cs k
      end
  | Opt r1 =>
      match run ic r1 s cs k with
      | Some v => Some v
      | None => k s cs
      end
  | Rep true lo hi cc => rep_greedy (cmatch cc) lo hi s (fun s' => k s' cs)
  | Rep false lo hi cc => rep_lazy (cmatch cc) lo hi s (fun s' => k s' cs)
  | Grp n r1 => run ic r1 s cs (fun s1 cs1 => k s1 ((n, consumed s s1) :: cs1))
  end.

End Matcher.

(** [re.search(r, s)]: the leftmost position where [r] matches; the value
    is the captures of that match. *)
Fixpoint search (ic : bool) (r : regex) (s : string) : option caps :=
  match run ic r s [] (fun _ cs => Some cs) with
  | Some cs => Some cs
  | None =>
      match s with
      | String _ s' => search ic r s'
      | EmptyString => None
      end
  end.

End Re.

(** ** Calendar ([datetime], [calendar]) *)

Module Cal.

Record date := mkDate { year : Z; month : Z; day : Z }.

(** [calendar.isleap]. *)
Definition isleap (y : Z) : bool :=
  (y mod 4 =? 0) && (negb (y mod 100 =? 0) || (y mod 400 =? 0)).

(** [calendar.mdays]. *)
Definition mdays (m : Z) : Z :=
  match m with
  | 1 => 31 | 2 => 28 | 3 => 31 | 4 => 30 | 5 => 31 | 6 => 30
  | 7 => 31 | 8 => 31 | 9 => 30 | 10 => 31 | 11 => 30 | 12 => 31
  | _ => 0
  end.

(** Second component of [calendar.monthrange(y, m)], for [1 <= m <= 12]. *)
Definition last_day (y m : Z) : Z :=
  mdays m + (if (m =? 2) && isleap y then 1 else 0).

Definition MAXYEAR : Z := 9999.

Definition valid_date (d : date) : Prop :=
  1 <= year d <= MAXYEAR /\ 1 <= month d <= 12 /\
  1 <= day d <= last_day (year d) (month d).

Definition valid_dateb (d : date) : bool :=
  (1 <=? year d) && (year d <=? MAXYEAR) && (1 <=? month d) && (month d <=? 12)
  && (1 <=? day d) && (day d <=? last_day (year d) (month d)).

(** [date.toordinal]: 0001-01-01 is day 1. *)
Definition days_before_year (y : Z) : Z :=
  let y := y - 1 in y * 365 + y / 4 - y / 100 + y / 400.

Definition days_before_month (y m : Z) : Z :=
  match m with
  | 1 => 0 | 2 => 31 | 3 => 59 | 4 => 90 | 5 => 120 | 6 => 151
  | 7 => 181 | 8 => 212 | 9 => 243 | 10 => 273 | 11 => 304 | 12 => 334
  | _ => 0
  end + (if (2 <? m) && isleap y then 1 else 0).

Definition toordinal (d : date) : Z :=
  days_before_year (year d) + days_before_month (year d) (month d) + day d.

(** [date.weekday]: Monday is 0. *)
Definition weekday (d : date) : Z := (toordinal d + 6) mod 7.

Definition next_day (d : date) : date :=
  if day d <? last_day (year d) (month d)
  then mkDate (year d) (month d) (day d + 1)
  else if month d <? 12 then mkDate (year d) (month d + 1) 1
  else mkDate (year d + 1) 1 1.

Fixpoint later (n : nat) (d : date) : date :=
  match n with
  | O => d
  | S n' => later n' (next_day d)
  end.

(** [d.strftime("%Y-%m-%d")]. *)
Definition strftime (d : date) : string :=
  PyStr.fmt04 (year d) ++ "-" ++ PyStr.fmt02 (month d) ++ "-"
  ++ PyStr.fmt02 (day d).

End Cal.

(** ** Exceptions *)

Inductive exn :=
| ValueError | IndexError | TypeError | AttributeError | OverflowError
| ApiError.   (* whatever the analyser's client raises *)

Inductive res (A : Type) :=
| Ok (a : A)
| Raise (e : exn).
Arguments Ok {A} a.
Arguments Raise {A} e.

Definition bind {A B} (x : res A) (f : A -> res B) : res B :=
  match x with
  | Ok a => f a
  | Raise e => Raise e
  end.

Notation "x <- c1 ;; c2" := (bind c1 (fun x => c2))
  (at level 61, c1 at next level, right associativity).

(** [try: body  except Exception: handler]. *)
Definition try_except {A} (body : res A) (handler : res A) : res A :=
  match body with
  | Ok a => Ok a
  | Raise _ => handler
  end.

(** [today + timedelta(days=n)] for [n >= 0]: [OverflowError] past the last
    representable day. *)
Definition plus_days (today : Cal.date) (n : Z) : res Cal.date :=
  let d := Cal.later (Z.to_nat n) today in
  if Cal.year d <=? Cal.MAXYEAR then Ok d else Raise OverflowError.

(** ** The rule-based engine

    [parse_date_from_prompt], [calculate_end_time] and the recognisers of
    [parse_tasks_directly] are the same text in the three files. *)

Import Re.

Record Task := mkTask {
  name : string;
  start_time : string;
  end_time : string;
  date : string
}.

(** [int(x)] where [x] may be [None]. *)
Definition py_int (x : option string) : res Z :=
  match x with
  | None => Raise TypeError
  | Some s =>
      match PyStr.int_of_str s with
      | Some z => Ok z
      | None => Raise ValueError
      end
  end.

(** [x.upper()] where [x] may be [None]. *)
Definition py_upper (x : option string) : res string :=
  match x with
  | None => Raise AttributeError
  | Some s => Ok (PyStr.upper s)
  end.

(** [x or d]: [None] and the empty string are both false. *)
Definition or_else (x : option string) (d : string) : string :=
  match x with
  | None | Some EmptyString => d
  | Some s => s
  end.

(** [f"{x}"] where [x] may be [None]. *)
Definition py_str (x : option string) : string :=
  match x with
  | None => "None"
  | Some s => s
  end.

(** *** Date resolver *)

Definition days_of_week : list (string * Z) :=
  [ ("monday", 0); ("mon", 0);
    ("tuesday", 1); ("tue", 1); ("tues", 1);
    ("wednesday", 2); ("wed", 2);
    ("thursday", 3); ("thu", 3); ("thurs", 3);
    ("friday", 4); ("fri", 4);
    ("saturday", 5); ("sat", 5);
    ("sunday", 6); ("sun", 6) ].

Definition month_names : list (string * Z) :=
  [ ("january", 1); ("jan", 1);
    ("february", 2); ("feb", 2);
    ("march", 3); ("mar", 3);
    ("april", 4); ("apr", 4);
    ("may", 5);
    ("june", 6); ("jun", 6);
    ("july", 7); ("jul", 7);
    ("august", 8); ("aug", 8);
    ("september", 9); ("sep", 9); ("sept", 9);
    ("october", 10); ("oct", 10);
    ("november", 11); ("nov", 11);
    ("december", 12); ("dec", 12) ].

(** [d.get(key)]. *)
Fixpoint dict_get (d : list (string * Z)) (key : string) : option Z :=
  match d with
  | [] => None
  | (k, v) :: d' => if String.eqb k key then Some v else dict_get d' key
  end.

(** The first entry, in insertion order, whose name occurs in the prompt:
    the [for ... in days_of_week.items()] loop up to its [return]. *)
Fixpoint first_named (d : list (string * Z)) (prompt_lower : string)
    : option (string * Z) :=
  match d with
  | [] => None
  | (day_name, day_num) :: d' =>
      if PyStr.contains day_name prompt_lower then Some (day_name, day_num)
      else first_named d' prompt_lower
  end.

(** [days_until] as both weekday rules compute it. *)
Definition days_until (day_num : Z) (today : Cal.date) : Z :=
  let current_day_num := Cal.weekday today in
  let days_until := (day_num - current_day_num) mod 7 in
  if days_until =? 0 then 7 else days_until.

(** The pattern "next\s+(monday|tuesday|...|sun)". *)
Definition next_day_pattern : regex :=
  seqs [ Lit "next"; plus CSpace;
         Grp 1 (alts (map Lit
           ["monday"; "tuesday"; "wednesday"; "thursday"; "friday";
            "saturday"; "sunday"; "mon"; "tue"; "wed"; "thu"; "fri"; "sat";
            "sun"])) ].

(** The pattern "{month_name}\s+(\d+)(?:st|nd|rd|th)?". *)
Definition month_pattern (month_name : string) : regex :=
  seqs [ Lit month_name; plus CSpace; Grp 1 (plus CDigit);
         Opt (alts (map Lit ["st"; "nd"; "rd"; "th"])) ].

(** The pattern "(\d{1,2})[/-](\d{1,2})(?:[/-](\d{2,4}))?". *)
Definition date_pattern : regex :=
  seqs [ Grp 1 (between 1 2 CDigit); Cls (COneOf "/-");
         Grp 2 (between 1 2 CDigit);
         Opt (Seq (Cls (COneOf "/-")) (Grp 3 (between 2 4 CDigit))) ].

(** The pattern "(\d{4})[/-](\d{1,2})[/-](\d{1,2})". *)
Definition iso_date_pattern : regex :=
  seqs [ Grp 1 (between 4 4 CDigit); Cls (COneOf "/-");
         Grp 2 (between 1 2 CDigit); Cls (COneOf "/-");
         Grp 3 (between 1 2 CDigit) ].

(** The f-string "{year}-{month:02d}-{day:02d}". *)
Definition fmt_ymd (year month day : Z) : string :=
  PyStr.str_of_Z year ++ "-" ++ PyStr.fmt02 month ++ "-" ++ PyStr.fmt02 day.

(** The year the month rule settles on: next year when the candidate lies
    before today. *)
Definition resolved_year (today : Cal.date) (month_num day : Z) : Z :=
  let year := Cal.year today in
  if (month_num <? Cal.month today)
     || ((month_num =? Cal.month today) && (day <? Cal.day today))
  then year + 1 else year.

(** The body of the month loop once [month_name] has matched with day
    number [day]: [None] is falling through to the next month name. *)
Definition month_day_candidate (today : Cal.date) (month_num day : Z)
    : option string :=
  let year := resolved_year today month_num day in
  let last_day := Cal.last_day year month_num in
  if (1 <=? day) && (day <=? last_day) then Some (fmt_ymd year month_num day)
  else None.

(** The month loop: [Ok None] when no month name led to a [return]. *)
Fixpoint month_loop (d : list (string * Z)) (today : Cal.date)
    (prompt_lower : string) : res (option string) :=
  match d with
  | [] => Ok None
  | (month_name, month_num) :: d' =>
      match search false (month_pattern month_name) prompt_lower with
      | Some month_match =>
          day <- py_int (group month_match 1) ;;
          match month_day_candidate today month_num day with
          | Some r => Ok (Some r)
          | None => month_loop d' today prompt_lower
          end
      | None => month_loop d' today prompt_lower
      end
  end.

(** The [M/D] rule: [Ok None] when it does not return. *)
Definition numeric_rule (today : Cal.date) (prompt : string)
    : res (option string) :=
  match search false date_pattern prompt with
  | Some date_match =>
      month <- py_int (group date_match 1) ;;
      day <- py_int (group date_match 2) ;;
      year <-
        match group date_match 3 with
        | None | Some EmptyString => Ok (Cal.year today)
        | Some year_str =>
            if Nat.eqb (String.length year_str) 2
            then (y <- py_int (Some year_str) ;; Ok (2000 + y))
            else py_int (Some year_str)
        end ;;
      if (1 <=? month) && (month <=? 12) then
        let last_day := Cal.last_day year month in
        if (1 <=? day) && (day <=? last_day)
        then Ok (Some (fmt_ymd year month day))
        else Ok None
      else Ok None
  | None => Ok None
  end.

(** The [YYYY-MM-DD] rule. *)
Definition iso_rule (prompt : string) : res (option string) :=
  match search false iso_date_pattern prompt with
  | Some iso_match =>
      year <- py_int (group iso_match 1) ;;
      month <- py_int (group iso_match 2) ;;
      day <- py_int (group iso_match 3) ;;
      if (1 <=? month) && (month <=? 12) then
        let last_day := Cal.last_day year month in
        if (1 <=? day) && (day <=? last_day)
        then Ok (Some (fmt_ymd year month day))
        else Ok None
      else Ok None
  | None => Ok None
  end.

(** The "next <weekday>" rule, placed after the weekday scan. *)
Definition next_day_rule (today : Cal.date) (prompt_lower : string)
    : res (option string) :=
  match search false next_day_pattern prompt_lower with
  | Some next_day_match =>
      match group next_day_match 1 with
      | Some day_name =>
          match dict_get days_of_week day_name with
          | Some day_num =>
              target_date <- plus_days today (days_until day_num today + 7) ;;
              Ok (Some (Cal.strftime target_date))
          | None => Ok None
          end
      | None => Ok None
      end
  | None => Ok None
  end.

(** Runs the rules that may decline, in order, then the default. *)
Fixpoint first_rule (rules : list (res (option string))) (default : res string)
    : res string :=
  match rules with
  | [] => default
  | r :: rules' =>
      o <- r ;;
      match o with
      | Some v => Ok v
      | None => first_rule rules' default
      end
  end.

Definition parse_date_from_prompt (today : Cal.date) (prompt : string)
    : res string :=
  let prompt_lower := PyStr.lower prompt in
  if PyStr.contains "today" prompt_lower then Ok (Cal.strftime today)
  else if PyStr.contains "tomorrow" prompt_lower then
    tomorrow <- plus_days today 1 ;; Ok (Cal.strftime tomorrow)
  else if PyStr.contains "next week" prompt_lower then
    next_week <- plus_days today 7 ;; Ok (Cal.strftime next_week)
  else
    match first_named days_of_week prompt_lower with
    | Some (_, day_num) =>
        target_date <- plus_days today (days_until day_num today) ;;
        Ok (Cal.strftime target_date)
    | None =>
        first_rule
          [ next_day_rule today prompt_lower;
            month_loop month_names today prompt_lower;
            numeric_rule today prompt;
            iso_rule prompt ]
          (tomorrow <- plus_days today 1 ;; Ok (Cal.strftime tomorrow))
    end.

(** *** End-time calculator, hour granularity *)

(** The block [# Convert to 24-hour format], the same text in both
    calculators and in the fallback extraction. *)
Definition to_24h (hours : Z) (period : string) : Z :=
  if String.eqb period "PM" && (hours <? 12) then hours + 12
  else if String.eqb period "AM" && (hours =? 12) then 0
  else hours.

(** The block [# Convert back to 12-hour format], the same text in both
    calculators and in the reading of the hint's time. *)
Definition to_12h (hours : Z) : Z * string :=
  if 12 <=? hours then (if 12 <? hours then hours - 12 else hours, "PM")
  else (if hours =? 0 then 12 else hours, "AM").

(** The computation of [calculate_end_time] before its result is rendered:
    end hour, end minute, end meridiem. *)
Definition end_time_parts (start_hour start_min : Z) (start_ampm : string)
    (duration_hours : Z) : Z * Z * string :=
  let start_hour := to_24h start_hour start_ampm in
  let end_hour := start_hour + duration_hours in
  let end_min := start_min in
  let '(end_hour, end_ampm) := to_12h end_hour in
  (end_hour, end_min, end_ampm).

(** The f-string "{hour}:{minute:02d} {ampm}". *)
Definition fmt_time (hour minute : Z) (ampm : string) : string :=
  PyStr.str_of_Z hour ++ ":" ++ PyStr.fmt02 minute ++ " " ++ ampm.

Definition calculate_end_time (start_hour start_min : Z) (start_ampm : string)
    (duration_hours : Z) : string :=
  let '(end_hour, end_min, end_ampm) :=
    end_time_parts start_hour start_min start_ampm duration_hours in
  fmt_time end_hour end_min end_ampm.

(** *** Activity recognisers and the direct-parse orchestrator *)

(** The time-of-day pattern shared by all recognisers: one or more digits
    (group [g]), an optional colon, any number of digits (group [g+1]),
    optional white space, one of AM, PM, am, pm (group [g+2]). *)
Definition time_tail (g : nat) : list regex :=
  [ Grp g (plus CDigit); Opt (Chr ":"); Grp (S g) (star CDigit); star CSpace;
    Grp (S (S g)) (alts (map Lit ["AM"; "PM"; "am"; "pm"])) ].

Definition lunch_pattern : regex :=
  seqs (Lit "lunch with " :: Grp 1 (plus CWord) :: lazy_star CAny :: time_tail 2).

Definition gym_pattern : regex :=
  seqs (Lit "gym" :: lazy_star CAny :: time_tail 1).

Definition class_pattern : regex :=
  seqs (Lit "class" :: plus CSpace :: Grp 1 (plus CWord) :: lazy_star CAny
        :: time_tail 2).

Definition meeting_pattern : regex :=
  seqs (Lit "meet" :: Opt (Lit "ing") :: plus CSpace :: Opt (Lit "with")
        :: star CSpace :: Grp 1 (plus CWord) :: lazy_star CAny :: time_tail 2).

Definition appointment_pattern : regex :=
  seqs (Grp 1 (alts (map Lit ["appointment"; "doctor"; "dentist"; "interview"]))
        :: lazy_star CAny :: time_tail 2).

Definition time_pattern : regex := seqs (time_tail 1).

(** The pattern "for\s+(\d+)\s+hour". *)
Definition duration_pattern : regex :=
  seqs [ Lit "for"; plus CSpace; Grp 1 (plus CDigit); plus CSpace; Lit "hour" ].

(** What every recogniser does with its match: the start time is read from
    groups [g], [g+1], [g+2]; [None] as start hour cannot occur there. *)
Definition timed_task (m : caps) (g : nat) (task_name : string)
    (default_duration : Z) (date_str : string) : res Task :=
  start_hour <- py_int (group m g) ;;
  let start_min := or_else (group m (S g)) "00" in
  start_ampm <- py_upper (group m (S (S g))) ;;
  sm <- py_int (Some start_min) ;;
  let end_time := calculate_end_time start_hour sm start_ampm default_duration in
  Ok (mkTask task_name
        (PyStr.str_of_Z start_hour ++ ":" ++ PyStr.zfill2 start_min ++ " "
         ++ start_ampm)
        end_time date_str).

(** One [if ..._match: tasks.append(...)] block. *)
Definition recognise (pat : regex) (g : nat) (task_name : caps -> string)
    (prompt : string) (default_duration : Z) (date_str : string)
    : res (list Task) :=
  match search true pat prompt with
  | Some m =>
      t <- timed_task m g (task_name m) default_duration date_str ;; Ok [t]
  | None => Ok []
  end.

Definition first_words (prompt : string) : string :=
  let words := PyStr.split_ws prompt in
  PyStr.join_sp (firstn (Nat.min 5 (List.length words)) words).

(** The [if not tasks:] block. *)
Definition generic_task (prompt : string) (default_duration : Z)
    (date_str : string) : res Task :=
  match search true time_pattern prompt with
  | Some time_match =>
      timed_task time_match 1 (first_words prompt) default_duration date_str
  | None =>
      Ok (mkTask (first_words prompt)
            (PyStr.str_of_Z 12 ++ ":" ++ PyStr.zfill2 "00" ++ " " ++ "PM")
            "1:00 PM" date_str)
  end.

Definition default_duration_of (prompt : string) : res Z :=
  match search true duration_pattern prompt with
  | Some duration_match => py_int (group duration_match 1)
  | None => Ok 1
  end.

(** [with_appointment] is true for [src/main_geminiy.py], the only variant
    with the appointment recogniser. *)
Definition parse_tasks_directly (with_appointment : bool) (today : Cal.date)
    (prompt : string) : res (list Task) :=
  date_str <- parse_date_from_prompt today prompt ;;
  default_duration <- default_duration_of prompt ;;
  t1 <- recognise lunch_pattern 2
          (fun m => "Lunch with " ++ py_str (group m 1))
          prompt default_duration date_str ;;
  t2 <- recognise gym_pattern 1 (fun _ => "Gym workout")
          prompt default_duration date_str ;;
  t3 <- recognise class_pattern 2
          (fun m => "Class " ++ py_str (group m 1))
          prompt default_duration date_str ;;
  t4 <- recognise meeting_pattern 2
          (fun m => "Meeting with " ++ py_str (group m 1))
          prompt default_duration date_str ;;
  t5 <- (if with_appointment then
           recognise appointment_pattern 2
             (fun m =>
                match group m 1 with
                | Some ty => PyStr.capitalize ty ++ " appointment"
                | None => "None appointment"
                end)
             prompt default_duration date_str
         else Ok []) ;;
  let tasks := (t1 ++ t2 ++ t3 ++ t4 ++ t5)%list in
  match tasks with
  | [] => t <- generic_task prompt default_duration date_str ;; Ok [t]
  | _ => Ok tasks
  end.

(** ** [main.py]: rule-based only *)

Module Main.

Definition schedule (today : Cal.date) (prompt : string) : res (list Task) :=
  parse_tasks_directly false today prompt.

End Main.

(** ** The external hint *)

(** The [duration] key of the analysis: missing, [null], or a number. *)
Inductive duration_field :=
| DAbsent
| DNull
| DInt (n : Z).

(** The analysis dictionary, read at the four keys the normaliser uses.
    [None] is a missing key or [null]. *)
Record Hint := mkHint {
  h_event_name : option string;
  h_date : option string;
  h_start_time : option string;
  h_duration : duration_field
}.

(** Truth value of [analysis.get(key)]. *)
Definition truthy (x : option string) : bool :=
  match x with
  | None | Some EmptyString => false
  | Some _ => true
  end.

(** [analysis.get("duration", 60)]: [None] is Python's [None]. *)
Definition get_duration (d : duration_field) : option Z :=
  match d with
  | DAbsent => Some 60
  | DNull => None
  | DInt n => Some n
  end.

(** [hours, minutes = map(int, s.split(":"))]: every failure is a
    [ValueError]. *)
Definition two_ints (s : string) : res (Z * Z) :=
  match PyStr.split_on ":" s with
  | [a; b] => h <- py_int (Some a) ;; m <- py_int (Some b) ;; Ok (h, m)
  | _ => Raise ValueError
  end.

(** [l[i]]. *)
Definition item (l : list string) (i : nat) : res string :=
  match nth_error l i with
  | Some x => Ok x
  | None => Raise IndexError
  end.

(** The parsing prefix of [calculate_end_time_from_12h]: hours on the 24-hour
    scale, minutes. *)
Definition parse_12h (start_time_str : string) : res (Z * Z) :=
  let time_parts := PyStr.split_ws start_time_str in
  time <- item time_parts 0 ;;
  period <- item time_parts 1 ;;
  hm <- two_ints time ;;
  let '(hours, minutes) := hm in
  Ok (to_24h hours period, minutes).

(** The rest of [calculate_end_time_from_12h]; adding [None] is a
    [TypeError]. *)
Definition end_from_minutes (hours minutes : Z) (duration_minutes : option Z)
    : res string :=
  match duration_minutes with
  | None => Raise TypeError
  | Some duration_minutes =>
      let total_minutes := hours * 60 + minutes + duration_minutes in
      let end_hours := total_minutes / 60 in
      let end_minutes := total_minutes mod 60 in
      let '(end_hours, end_period) := to_12h end_hours in
      Ok (fmt_time end_hours end_minutes end_period)
  end.

(** The conversion of the hint's 24-hour [HH:MM] to the 12-hour form. *)
Definition hint_time_to_12h (st : string) : res string :=
  hm <- two_ints st ;;
  let '(hours, minutes) := hm in
  let '(hours, period) := to_12h hours in
  Ok (fmt_time hours minutes period).

(** The start time read from the original prompt, noon by default. *)
Definition time_from_prompt (original_prompt : string) : res string :=
  match search true time_pattern original_prompt with
  | Some time_match =>
      let hours := py_str (group time_match 1) in
      let minutes := or_else (group time_match 2) "00" in
      period <- py_upper (group time_match 3) ;;
      Ok (hours ++ ":" ++ minutes ++ " " ++ period)
  | None => Ok "12:00 PM"
  end.

(** The [# Handle start time] block, the same in both normalisers. *)
Definition resolve_start_time (analysis : Hint) (original_prompt : string)
    : res string :=
  if truthy (h_start_time analysis) then
    try_except (hint_time_to_12h (py_str (h_start_time analysis)))
      (time_from_prompt original_prompt)
  else time_from_prompt original_prompt.

(** ** [main_gemini.py] *)

Module Gemini.

Definition calculate_end_time_from_12h (start_time_str : string)
    (duration_minutes : option Z) : res string :=
  hm <- parse_12h start_time_str ;;
  end_from_minutes (fst hm) (snd hm) duration_minutes.

Definition convert_analysis_to_tasks (analysis : Hint)
    (original_prompt : string) : res (list Task) :=
  if negb (truthy (h_event_name analysis) && truthy (h_date analysis))
  then Ok []
  else
    let event_name := py_str (h_event_name analysis) in
    let date := py_str (h_date analysis) in
    start_time <- resolve_start_time analysis original_prompt ;;
    let duration_minutes := get_duration (h_duration analysis) in
    end_time <- calculate_end_time_from_12h start_time duration_minutes ;;
    Ok [mkTask event_name start_time end_time date].

(** [analyze_message] makes one call; [None] is its result with
    [success: False] (the call or the reading of the answer failed). *)
Definition schedule (analysis_result : option Hint) (today : Cal.date)
    (prompt : string) : res (list Task) :=
  try_except
    (early <-
       match analysis_result with
       | Some analysis =>
           tasks <- convert_analysis_to_tasks analysis prompt ;;
           match tasks with
           | [] => Ok None
           | _ => Ok (Some tasks)
           end
       | None => Ok None
       end ;;
     match early with
     | Some tasks => Ok tasks
     | None => parse_tasks_directly false today prompt
     end)
    (parse_tasks_directly false today prompt).

End Gemini.

(** ** [src/main_geminiy.py] *)

Module Robust.

(** The whole body sits in [try: ... except Exception: return
    start_time_str]. *)
Definition calculate_end_time_from_12h (start_time_str : string)
    (duration_minutes : option Z) : string :=
  match Gemini.calculate_end_time_from_12h start_time_str duration_minutes with
  | Ok end_time => end_time
  | Raise _ => start_time_str
  end.

Definition convert_analysis_to_tasks (today : Cal.date) (analysis : Hint)
    (original_prompt : string) : list Task :=
  let body : res (list Task) :=
    if negb (truthy (h_event_name analysis)) then Ok []
    else
      let event_name := py_str (h_event_name analysis) in
      date <-
        (if truthy (h_date analysis) then Ok (py_str (h_date analysis))
         else parse_date_from_prompt today original_prompt) ;;
      start_time <- resolve_start_time analysis original_prompt ;;
      let duration_minutes := get_duration (h_duration analysis) in
      let end_time := calculate_end_time_from_12h start_time duration_minutes in
      Ok [mkTask event_name start_time end_time date] in
  match body with
  | Ok tasks => tasks
  | Raise _ => []
  end.

(** The pattern "for\s+(\d+)\s+(hour|hr|minute|min)s?". *)
Definition fallback_duration_pattern : regex :=
  seqs [ Lit "for"; plus CSpace; Grp 1 (plus CDigit); plus CSpace;
         Grp 2 (alts (map Lit ["hour"; "hr"; "minute"; "min"])); Opt (Chr "s") ].

Definition _fallback_extraction (today : Cal.date) (message : string)
    : res Hint :=
  let words := PyStr.split_ws message in
  let event_name :=
    match words with
    | [] => None
    | _ => Some (first_words message)
    end in
  date <- parse_date_from_prompt today message ;;
  start_time <-
    match search true time_pattern message with
    | Some time_match =>
        hours <- py_int (group time_match 1) ;;
        let minutes := or_else (group time_match 2) "00" in
        period <- py_upper (group time_match 3) ;;
        let hours := to_24h hours period in
        Ok (Some (PyStr.fmt02 hours ++ ":" ++ minutes))
    | None => Ok None
    end ;;
  duration <-
    match search true fallback_duration_pattern message with
    | Some duration_match =>
        duration_value <- py_int (group duration_match 1) ;;
        match group duration_match 2 with
        | Some u =>
            let duration_unit := PyStr.lower u in
            if String.eqb duration_unit "hour" || String.eqb duration_unit "hr"
            then Ok (duration_value * 60)
            else Ok duration_value
        | None => Raise AttributeError
        end
    | None => Ok 60
    end ;;
  Ok (mkHint event_name (Some date) start_time (DInt duration)).

(** The [for attempt in range(3)] loop: [oracle attempt] is what the call
    and the reading of its answer give at that attempt, [None] when either
    raises.  [Ok None] is the loop running out. *)
Fixpoint attempts (oracle : nat -> option Hint) (range : list nat)
    : res (option Hint) :=
  match range with
  | [] => Ok None
  | attempt :: range' =>
      match oracle attempt with
      | Some result => Ok (Some result)
      | None =>
          if Nat.eqb attempt 2 then Raise ApiError
          else attempts oracle range'
      end
  end.

(** The value is [None] when the method ends without a [return]. *)
Definition analyze_message (GEMINI_AVAILABLE model_ready : bool)
    (oracle : nat -> option Hint) (today : Cal.date) (message : string)
    : res (option Hint) :=
  if negb GEMINI_AVAILABLE || negb model_ready
  then h <- _fallback_extraction today message ;; Ok (Some h)
  else
    try_except (attempts oracle [0; 1; 2]%nat)
      (h <- _fallback_extraction today message ;; Ok (Some h)).

Definition schedule (GEMINI_AVAILABLE model_ready : bool)
    (oracle : nat -> option Hint) (today : Cal.date) (prompt : string)
    : res (list Task) :=
  try_except
    (early <-
       (if GEMINI_AVAILABLE then
          try_except
            (analysis_result <-
               analyze_message GEMINI_AVAILABLE model_ready oracle today prompt ;;
             match analysis_result with
             | Some analysis =>
                 match convert_analysis_to_tasks today analysis prompt with
                 | [] => Ok None
                 | tasks => Ok (Some tasks)
                 end
             | None => Raise AttributeError
             end)
            (Ok None)
        else Ok None) ;;
     match early with
     | Some tasks => Ok tasks
     | None => parse_tasks_directly true today prompt
     end)
    (parse_tasks_directly true today prompt).

End Robust.

(** ** The regex reading of the analyser's reply

    [_extract_with_regex] of [main_gemini.py] and [src/main_geminiy.py]:
    what the analyser makes of a reply that is not JSON.  The two files
    differ in the duration the result starts with: [None] in the first, 60
    in the second. *)

Definition all_ascii : list ascii := map ascii_of_nat (seq 0 256).

(** A bracketed character class, given by the test its members pass. *)
Definition chars_where (p : ascii -> bool) : cclass :=
  COneOf (string_of_list_ascii (filter p all_ascii)).

Definition dquote : ascii := "034".
Definition newline : ascii := "010".

(** The class after each key: a double quote, white space or a colon. *)
Definition key_gap (c : ascii) : bool :=
  Ascii.eqb c dquote || PyStr.is_space c || Ascii.eqb c ":".

(** The class of a value: anything but a double quote, a comma and a
    newline. *)
Definition value_char (c : ascii) : bool :=
  negb (Ascii.eqb c dquote || Ascii.eqb c "," || Ascii.eqb c newline).

(** The key, one or more characters of the gap class, then the captured
    value: one or more value characters. *)
Definition field_pattern (key : string) : regex :=
  seqs [ Lit key; plus (chars_where key_gap);
         Grp 1 (plus (chars_where value_char)) ].

(** The same with one or more digits as the value. *)
Definition number_pattern (key : string) : regex :=
  seqs [ Lit key; plus (chars_where key_gap); Grp 1 (plus CDigit) ].

(** [x.strip()] where [x] may be [None]. *)
Definition py_strip (x : option string) : res string :=
  match x with
  | None => Raise AttributeError
  | Some s => Ok (PyStr.strip s)
  end.

(** [s.lower() not in ['null', 'none']]. *)
Definition not_null (s : string) : bool :=
  negb (String.eqb (PyStr.lower s) "null" || String.eqb (PyStr.lower s) "none").

(** The [date] and [start_time] blocks: the stripped value, unless it
    spells null or none. *)
Definition extract_value (key : string) (text : string) : res (option string) :=
  match search false (field_pattern key) text with
  | Some value_match =>
      value_str <- py_strip (group value_match 1) ;;
      if not_null value_str then Ok (Some value_str) else Ok None
  | None => Ok None
  end.

Definition extract_with_regex (default_duration : duration_field)
    (text : string) : res Hint :=
  event_name <-
    match search false (field_pattern "event_name") text with
    | Some event_match =>
        s <- py_strip (group event_match 1) ;; Ok (Some s)
    | None => Ok None
    end ;;
  date <- extract_value "date" text ;;
  start_time <- extract_value "start_time" text ;;
  duration <-
    match search false (number_pattern "duration") text with
    | Some duration_match =>
        n <- py_int (group duration_match 1) ;; Ok (DInt n)
    | None => Ok default_duration
    end ;;
  Ok (mkHint event_name date start_time duration).

Module GeminiChatAnalyzer.

(** [main_gemini.py]: the result starts with ["duration": None]. *)
Definition _extract_with_regex (text : string) : res Hint :=
  extract_with_regex DNull text.

End GeminiChatAnalyzer.

Module SimplifiedGeminiAnalyzer.

(** [src/main_geminiy.py]: the result starts with ["duration": 60]. *)
Definition _extract_with_regex (text : string) : res Hint :=
  extract_with_regex (DInt 60) text.

End SimplifiedGeminiAnalyzer.

(** ** Vocabulary of the statements *)

Fixpoint all_chars (p : ascii -> bool) (s : string) : bool :=
  match s with
  | EmptyString => true
  | String c s' => p c && all_chars p s'
  end.

Definition within (hi : option nat) (n : nat) : Prop :=
  match hi with
  | Some h => (n <= h)%nat
  | None => True
  end.

(** [matches ic r w cs cs']: the expression [r] can match exactly the word
    [w], turning the captures [cs] into [cs'].  This is the declarative
    reading of a pattern, against which the backtracking matcher is
    checked. *)
Fixpoint matches (ic : bool) (r : regex) (w : string) (cs cs' : caps) : Prop :=
  match r with
  | Eps => w = "" /\ cs' = cs
  | Chr c => exists x, w = String x "" /\ chr_eq ic c x = true /\ cs' = cs
  | Cls cc => exists x, w = String x "" /\ cmatch cc x = true /\ cs' = cs
  | Seq r1 r2 =>
      exists w1 w2 cs1,
        w = w1 ++ w2 /\ matches ic r1 w1 cs cs1 /\ matches ic r2 w2 cs1 cs'
  | Alt r1 r2 => matches ic r1 w cs cs' \/ matches ic r2 w cs cs'
  | Opt r1 => matches ic r1 w cs cs' \/ (w = "" /\ cs' = cs)
  | Rep _ lo hi cc =>
      all_chars (cmatch cc) w = true /\ (lo <= String.length w)%nat
      /\ within hi (String.length w) /\ cs' = cs
  | Grp n r1 => exists cs1, matches ic r1 w cs cs1 /\ cs' = (n, w) :: cs1
  end.

Fixpoint groupless (r : regex) : bool :=
  match r with
  | Eps | Chr _ | Cls _ | Rep _ _ _ _ => true
  | Seq r1 r2 | Alt r1 r2 => groupless r1 && groupless r2
  | Opt r1 => groupless r1
  | Grp _ _ => false
  end.

(** The three bindings every timed pattern ends with: hour digits (at least
    one), minute digits (possibly none), the meridiem in either case. *)
Definition time_caps (g : nat) (m : caps) : Prop :=
  exists h mi ap rest,
    m = (S (S g), ap) :: (S g, mi) :: (g, h) :: rest
    /\ all_chars PyStr.is_digit h = true /\ h <> ""
    /\ all_chars PyStr.is_digit mi = true
    /\ (PyStr.upper ap = "AM" \/ PyStr.upper ap = "PM").

(** A decimal numeral as [str] and the f-strings write it: digits, with a
    minus sign in front when negative. *)
Definition numeral (s : string) : Prop :=
  exists ds,
    all_chars PyStr.is_digit ds = true /\ ds <> ""
    /\ (s = ds \/ s = String "-" ds).

Definition no_space (s : string) : Prop :=
  all_chars (fun c => negb (PyStr.is_space c)) s = true.

Definition no_colon (s : string) : Prop :=
  all_chars (fun c => negb (Ascii.eqb c ":")) s = true.


(** Group [n] is bound to a non-empty run of digits. *)
Definition digit_bound (m : caps) (n : nat) : Prop :=
  exists h, group m n = Some h /\ all_chars PyStr.is_digit h = true /\ h <> "".


(** A prompt made of white space only; the empty prompt is one. *)
Definition blank (s : string) : Prop := all_chars PyStr.is_space s = true.

(** A literal of the pattern that no white-space character can match. *)
Definition chr_solid (ic : bool) (c : ascii) : bool :=
  negb (PyStr.is_space (if ic then PyStr.lower_char c else c)).

Definition cls_solid (cc : cclass) : bool :=
  match cc with
  | CDigit | CWord => true
  | CSpace | CAny => false
  | COneOf cs => all_chars (fun c => negb (PyStr.is_space c)) cs
  end.

(** [demands ic r]: every match of [r] contains a character that is not
    white space. *)
Fixpoint demands (ic : bool) (r : regex) : bool :=
  match r with
  | Eps => false
  | Chr c => chr_solid ic c
  | Cls cc => cls_solid cc
  | Seq r1 r2 => demands ic r1 || demands ic r2
  | Alt r1 r2 => demands ic r1 && demands ic r2
  | Opt _ => false
  | Rep _ lo _ cc => negb (Nat.eqb lo 0) && cls_solid cc
  | Grp _ r1 => demands ic r1
  end.

(** A start time on the 12-hour clock. *)
Definition valid12 (h m : Z) (p : string) : Prop :=
  1 <= h <= 12 /\ 0 <= m <= 59 /\ (p = "AM" \/ p = "PM").

(** Reading back a rendered 12-hour time gives its 24-hour value. *)
Definition reads_back (h m : Z) (p : string) : bool :=
  match parse_12h (fmt_time h m p) with
  | Ok (h24, m') => (h24 =? to_24h h p) && (m' =? m)
  | Raise _ => false
  end.

Definition Zrange (lo : nat) (len : nat) : list Z := map Z.of_nat (seq lo len).


(** A date with a real month and day; the year is free. *)
Definition wf_date (d : Cal.date) : Prop :=
  1 <= Cal.month d <= 12 /\ 1 <= Cal.day d <= Cal.last_day (Cal.year d) (Cal.month d).

(** The month names whose pattern matches the prompt, in table order, each
    with the day number it captured: what the month loop looks at, apart
    from the reference date. *)
Fixpoint month_hits (d : list (string * Z)) (prompt_lower : string)
    : list (Z * Z) :=
  match d with
  | [] => []
  | (month_name, month_num) :: d' =>
      match search false (month_pattern month_name) prompt_lower with
      | Some month_match =>
          match py_int (group month_match 1) with
          | Ok day => (month_num, day) :: month_hits d' prompt_lower
          | Raise _ => []
          end
      | None => month_hits d' prompt_lower
      end
  end.

(** The first candidate that passes the validation of the month rule. *)
Fixpoint first_candidate (today : Cal.date) (hits : list (Z * Z))
    : option string :=
  match hits with
  | [] => None
  | (month_num, day) :: hits' =>
      match month_day_candidate today month_num day with
      | Some r => Some r
      | None => first_candidate today hits'
      end
  end.






(** ** Vocabulary of the further properties *)

(** None of the rules placed before the [MM/DD] rule fires on the prompt:
    no relative keyword, no weekday name, no month name followed by a
    number. *)
Definition quiet (prompt : string) : bool :=
  let prompt_lower := PyStr.lower prompt in
  negb (PyStr.contains "today" prompt_lower)
  && negb (PyStr.contains "tomorrow" prompt_lower)
  && negb (PyStr.contains "next week" prompt_lower)
  && match first_named days_of_week prompt_lower with
     | None => true
     | Some _ => false
     end
  && match month_hits month_names prompt_lower with
     | [] => true
     | _ => false
     end.

(** A digit or one of the two separators of the numeric date patterns. *)
Definition numeric_char (c : ascii) : bool :=
  PyStr.is_digit c || mem_char c "/-".

(** A run of exactly [n] digits. *)
Definition digits (n : nat) (s : string) : Prop :=
  all_chars PyStr.is_digit s = true /\ String.length s = n.

(** What the resolver answers when no rule decides. *)
Definition default_date (today : Cal.date) : res string :=
  tomorrow <- plus_days today 1 ;; Ok (Cal.strftime tomorrow).

(** The check both numeric rules make of a month and a day. *)
Definition real_day (year month day : Z) : bool :=
  (1 <=? month) && (month <=? 12)
  && (1 <=? day) && (day <=? Cal.last_day year month).




(** * Properties *)

(** ** The examples of the specification *)

Example lunch_tomorrow :
  Main.schedule (Cal.mkDate 2025 6 10) "lunch with Sam at 1pm tomorrow"
  = Ok [mkTask "Lunch with Sam" "1:00 PM" "2:00 PM" "2025-06-11"].
Proof. reflexivity. Qed.

Example gym_two_hours :
  Main.schedule (Cal.mkDate 2025 6 10) "gym at 7am for 2 hours"
  = Ok [mkTask "Gym workout" "7:00 AM" "9:00 AM" "2025-06-11"].
Proof. reflexivity. Qed.

Example meeting_and_lunch :
  Main.schedule (Cal.mkDate 2025 6 10)
    "meeting with Dana at 11:30am and lunch with Sam at 1pm"
  = Ok [mkTask "Lunch with Sam" "1:00 PM" "2:00 PM" "2025-06-11";
        mkTask "Meeting with Dana" "11:30 AM" "12:30 PM" "2025-06-11"].
Proof. reflexivity. Qed.

Example five_words :
  Main.schedule (Cal.mkDate 2025 6 10) "call the plumber about the leak"
  = Ok [mkTask "call the plumber about the" "12:00 PM" "1:00 PM" "2025-06-11"].
Proof. reflexivity. Qed.

Example same_weekday_rolls_a_week :
  Cal.weekday (Cal.mkDate 2025 6 10) = 1
  /\ parse_date_from_prompt (Cal.mkDate 2025 6 10) "dinner on Tuesday"
     = Ok "2025-06-17".
Proof. split; reflexivity. Qed.

Example hint_quarter_past_eleven : hint_time_to_12h "23:15" = Ok "11:15 PM".
Proof. reflexivity. Qed.

Example hint_without_event_name :
  Robust.convert_analysis_to_tasks (Cal.mkDate 2025 6 10)
    (mkHint None (Some "2025-06-12") (Some "23:15") (DInt 30)) "see you"
  = [].
Proof. reflexivity. Qed.

(** ** The matcher is sound for the declarative reading *)

Lemma append_assoc (a b c : string) : (a ++ b) ++ c = a ++ (b ++ c).
Proof. induction a as [|x a IH]; simpl; [reflexivity | now rewrite IH]. Qed.

Lemma length_append (a b : string) :
  String.length (a ++ b) = (String.length a + String.length b)%nat.
Proof. induction a as [|x a IH]; simpl; [reflexivity | now rewrite IH]. Qed.

Lemma substring_prefix (w s : string) :
  substring 0 (String.length w) (w ++ s) = w.
Proof.
  induction w as [|x w IH]; simpl.
  - destruct s; reflexivity.
  - now rewrite IH.
Qed.

Lemma consumed_append (w s : string) : consumed (w ++ s) s = w.
Proof.
  unfold consumed. rewrite length_append.
  replace (String.length w + String.length s - String.length s)%nat
    with (String.length w) by lia.
  apply substring_prefix.
Qed.

Section Soundness.
Context {A : Type}.

Lemma rep_greedy_sound (p : ascii -> bool) (s : string) :
  forall lo hi (k : string -> option A) v,
    rep_greedy p lo hi s k = Some v ->
    exists w s', s = w ++ s' /\ all_chars p w = true
      /\ (lo <= String.length w)%nat /\ within hi (String.length w)
      /\ k s' = Some v.
Proof.
  assert (Hstop : forall lo hi (k : string -> option A) v t,
            (if Nat.eqb lo 0 then k t else None) = Some v ->
            exists w s', t = w ++ s' /\ all_chars p w = true
              /\ (lo <= String.length w)%nat /\ within hi (String.length w)
              /\ k s' = Some v).
  { intros lo hi k v t H. destruct (Nat.eqb_spec lo 0) as [->|]; [|discriminate].
    exists "", t. repeat split; auto. destruct hi; simpl; lia. }
  induction s as [|c s IH]; intros lo hi k v H; simpl in H.
  - now apply Hstop.
  - destruct (p c && room hi) eqn:E; [|now apply Hstop].
    destruct (rep_greedy p (Nat.pred lo) (less hi) s k) eqn:R; [|now apply Hstop].
    injection H as <-. apply andb_prop in E as [Ep Er].
    destruct (IH _ _ _ _ R) as (w & s' & -> & Hw & Hlo & Hhi & Hk).
    exists (String c w), s'. simpl. rewrite Ep, Hw. repeat split; auto; [lia|].
    destruct hi as [[|h]|]; simpl in *; try discriminate; lia.
Qed.

Lemma rep_lazy_sound (p : ascii -> bool) (s : string) :
  forall lo hi (k : string -> option A) v,
    rep_lazy p lo hi s k = Some v ->
    exists w s', s = w ++ s' /\ all_chars p w = true
      /\ (lo <= String.length w)%nat /\ within hi (String.length w)
      /\ k s' = Some v.
Proof.
  induction s as [|c s IH]; intros lo hi k v H; simpl in H.
  - destruct (Nat.eqb_spec lo 0) as [->|]; [|discriminate].
    destruct (k "") eqn:K; [|discriminate]. injection H as <-.
    exists "", "". repeat split; auto. destruct hi; simpl; lia.
  - destruct (if Nat.eqb lo 0 then k (String c s) else None) eqn:K.
    + injection H as <-. destruct (Nat.eqb_spec lo 0) as [->|]; [|discriminate].
      exists "", (String c s). repeat split; auto. destruct hi; simpl; lia.
    + destruct (p c && room hi) eqn:E; [|discriminate].
      apply andb_prop in E as [Ep Er].
      destruct (IH _ _ _ _ H) as (w & s' & -> & Hw & Hlo & Hhi & Hk).
      exists (String c w), s'. simpl. rewrite Ep, Hw. repeat split; auto; [lia|].
      destruct hi as [[|h]|]; simpl in *; try discriminate; lia.
Qed.

Lemma run_sound (ic : bool) (r : regex) :
  forall s cs (k : string -> caps -> option A) v,
    run ic r s cs k = Some v ->
    exists w s' cs', s = w ++ s' /\ matches ic r w cs cs' /\ k s' cs' = Some v.
Proof.
  induction r as [|c|cc|r1 IH1 r2 IH2|r1 IH1 r2 IH2|r1 IH1|g lo hi cc|n r1 IH1];
    intros s cs k v H; simpl in H.
  - exists "", s, cs. simpl. auto.
  - destruct s as [|x s]; [discriminate|].
    destruct (chr_eq ic c x) eqn:E; [|discriminate].
    exists (String x ""), s, cs. simpl. eauto 6.
  - destruct s as [|x s]; [discriminate|].
    destruct (cmatch cc x) eqn:E; [|discriminate].
    exists (String x ""), s, cs. simpl. eauto 6.
  - destruct (IH1 _ _ _ _ H) as (w1 & s1 & cs1 & -> & M1 & H1).
    destruct (IH2 _ _ _ _ H1) as (w2 & s2 & cs2 & -> & M2 & H2).
    exists (w1 ++ w2), s2, cs2. rewrite append_assoc. simpl. eauto 10.
  - destruct (run ic r1 s cs k) eqn:R1.
    + injection H as <-.
      destruct (IH1 _ _ _ _ R1) as (w & s' & cs' & -> & M & K).
      exists w, s', cs'. simpl. auto.
    + destruct (IH2 _ _ _ _ H) as (w & s' & cs' & -> & M & K).
      exists w, s', cs'. simpl. auto.
  - destruct (run ic r1 s cs k) eqn:R1.
    + injection H as <-.
      destruct (IH1 _ _ _ _ R1) as (w & s' & cs' & -> & M & K).
      exists w, s', cs'. simpl. auto.
    + exists "", s, cs. simpl. auto.
  - destruct g.
    + apply rep_greedy_sound in H as (w & s' & -> & Hw & Hlo & Hhi & Hk).
      exists w, s', cs. simpl. repeat split; auto.
    + apply rep_lazy_sound in H as (w & s' & -> & Hw & Hlo & Hhi & Hk).
      exists w, s', cs. simpl. repeat split; auto.
  - destruct (IH1 _ _ _ _ H) as (w & s' & cs1 & -> & M & K).
    rewrite consumed_append in K.
    exists w, s', ((n, w) :: cs1). simpl. eauto.
Qed.

End Soundness.

Lemma search_sound (ic : bool) (r : regex) (s : string) (m : caps) :
  search ic r s = Some m ->
  exists pre w post, s = pre ++ w ++ post /\ matches ic r w [] m.
Proof.
  induction s as [|c s IH]; simpl; intros H.
  - destruct (run ic r "" [] (fun _ cs => Some cs)) eqn:R; [|discriminate].
    injection H as <-. apply run_sound in R as (w & s' & cs' & E & M & K).
    injection K as <-. exists "", w, s'. auto.
  - destruct (run ic r (String c s) [] (fun _ cs => Some cs)) eqn:R.
    + injection H as <-. apply run_sound in R as (w & s' & cs' & E & M & K).
      injection K as <-. exists "", w, s'. auto.
    + destruct (IH H) as (pre & w & post & -> & M).
      exists (String c pre), w, post. auto.
Qed.

(** ** What the patterns of the program capture *)


Lemma groupless_caps (ic : bool) (r : regex) :
  groupless r = true ->
  forall w cs cs', matches ic r w cs cs' -> cs' = cs.
Proof.
  induction r as [|c|cc|r1 IH1 r2 IH2|r1 IH1 r2 IH2|r1 IH1|g lo hi cc|n r1 IH1];
    simpl; intros G w cs cs' M.
  - now destruct M.
  - now destruct M as (x & _ & _ & ->).
  - now destruct M as (x & _ & _ & ->).
  - apply andb_prop in G as [G1 G2].
    destruct M as (w1 & w2 & cs1 & _ & M1 & M2).
    apply IH1 in M1; auto. apply IH2 in M2; auto. congruence.
  - apply andb_prop in G as [G1 G2]. destruct M as [M|M]; eauto.
  - destruct M as [M|[_ ->]]; eauto.
  - now destruct M as (_ & _ & _ & ->).
  - discriminate.
Qed.

Lemma append_nil_r (s : string) : s ++ "" = s.
Proof. induction s as [|c s IH]; simpl; [reflexivity | now rewrite IH]. Qed.

Lemma matches_seqs_cons (ic : bool) (r : regex) (rs : list regex) w cs cs' :
  matches ic (seqs (r :: rs)) w cs cs' ->
  exists w1 w2 cs1,
    w = w1 ++ w2 /\ matches ic r w1 cs cs1 /\ matches ic (seqs rs) w2 cs1 cs'.
Proof.
  destruct rs as [|r' rs]; intros M.
  - exists w, "", cs'. rewrite append_nil_r. simpl in *. auto.
  - exact M.
Qed.

(** The captures left by a sequence are those left by its last part. *)
Lemma matches_seqs_tail (ic : bool) (l1 l2 : list regex) :
  forall w cs cs',
    matches ic (seqs (l1 ++ l2)) w cs cs' ->
    exists w2 cs1, matches ic (seqs l2) w2 cs1 cs'.
Proof.
  induction l1 as [|r l1 IH]; intros w cs cs' M.
  - eauto.
  - change ((r :: l1) ++ l2)%list with (r :: (l1 ++ l2))%list in M.
    apply matches_seqs_cons in M as (w1 & w2 & cs1 & _ & _ & M2). eauto.
Qed.


Lemma letter_upper (ic : bool) (c x : ascii) :
  In c ["A"; "M"; "P"; "a"; "m"; "p"]%char ->
  chr_eq ic c x = true -> PyStr.upper_char x = PyStr.upper_char c.
Proof.
  intros I.
  assert (L : forall c0, In c0 ["A"; "M"; "P"; "a"; "m"; "p"]%char ->
            chr_eq true c0 x = true ->
            PyStr.upper_char x = PyStr.upper_char c0).
  { clear. intros c0 I0. simpl in I0.
    repeat (destruct I0 as [<-|I0];
            [destruct x as [[] [] [] [] [] [] [] []]; vm_compute; intros H;
             solve [discriminate H | reflexivity]|]).
    contradiction. }
  destruct ic; [now apply L|].
  unfold chr_eq. intros E. apply Ascii.eqb_eq in E. now subst.
Qed.

Lemma two_letters_upper (ic : bool) (c1 c2 : ascii) w cs cs' :
  In c1 ["A"; "M"; "P"; "a"; "m"; "p"]%char ->
  In c2 ["A"; "M"; "P"; "a"; "m"; "p"]%char ->
  matches ic (Seq (Chr c1) (Chr c2)) w cs cs' ->
  PyStr.upper w = String (PyStr.upper_char c1) (String (PyStr.upper_char c2) "").
Proof.
  intros I1 I2 (w1 & w2 & cs1 & -> & (x1 & -> & E1 & _) & (x2 & -> & E2 & _)).
  unfold PyStr.upper. cbn [append PyStr.map_str].
  now rewrite (letter_upper ic c1 x1 I1 E1), (letter_upper ic c2 x2 I2 E2).
Qed.

Lemma meridiem_upper (ic : bool) w cs cs' :
  matches ic (alts (map Lit ["AM"; "PM"; "am"; "pm"])) w cs cs' ->
  PyStr.upper w = "AM" \/ PyStr.upper w = "PM".
Proof.
  cbn [map alts Lit matches].
  intros [M|[M|[M|M]]];
    apply (two_letters_upper ic) in M; try (simpl; tauto);
    rewrite M; vm_compute; auto.
Qed.

Lemma time_tail_caps (ic : bool) (g : nat) w cs cs' :
  matches ic (seqs (time_tail g)) w cs cs' -> time_caps g cs'.
Proof.
  unfold time_tail. intros M.
  apply matches_seqs_cons in M as (w1 & x1 & c1 & _ & M1 & M).
  apply matches_seqs_cons in M as (w2 & x2 & c2 & _ & M2 & M).
  apply matches_seqs_cons in M as (w3 & x3 & c3 & _ & M3 & M).
  apply matches_seqs_cons in M as (w4 & x4 & c4 & _ & M4 & M).
  apply (groupless_caps ic (Opt (Chr ":")) eq_refl) in M2.
  apply (groupless_caps ic (star CSpace) eq_refl) in M4.
  destruct M1 as (c1' & (D1 & L1 & _ & ->) & ->).
  destruct M3 as (c3' & (D3 & _ & _ & ->) & ->).
  destruct M as (c5' & M5 & ->).
  pose proof M5 as M5'. apply groupless_caps in M5'; [|reflexivity]. subst.
  exists w1, w3, x4, cs. repeat split; auto.
  - intros ->. simpl in L1. lia.
  - eapply meridiem_upper; eassumption.
Qed.

Lemma timed_pattern_caps (ic : bool) (pre : list regex) (g : nat) s m :
  search ic (seqs (pre ++ time_tail g)) s = Some m -> time_caps g m.
Proof.
  intros H. apply search_sound in H as (p & w & q & _ & M).
  apply matches_seqs_tail in M as (w2 & cs1 & M).
  now apply time_tail_caps in M.
Qed.

(** ** [int] on a run of digits *)

Lemma digit_props (c : ascii) :
  PyStr.is_digit c = true ->
  PyStr.is_space c = false /\ Ascii.eqb c "-" = false
  /\ Ascii.eqb c "+" = false.
Proof.
  destruct c as [[] [] [] [] [] [] [] []]; vm_compute; intros H;
    solve [discriminate H | auto].
Qed.

Lemma rev_str_rev_str (s : string) :
  forall acc acc',
    PyStr.rev_str (PyStr.rev_str s acc) acc' = PyStr.rev_str acc (s ++ acc').
Proof.
  induction s as [|c s IH]; intros acc acc'; simpl; [reflexivity|].
  now rewrite IH.
Qed.

Lemma all_chars_rev_str (p : ascii -> bool) (s : string) :
  forall acc,
    all_chars p s = true -> all_chars p acc = true ->
    all_chars p (PyStr.rev_str s acc) = true.
Proof.
  induction s as [|c s IH]; intros acc Hs Ha; simpl in *; [assumption|].
  apply andb_prop in Hs as [Hc Hs]. apply IH; simpl; auto. now rewrite Hc.
Qed.

Lemma lstrip_digits (s : string) :
  all_chars PyStr.is_digit s = true -> PyStr.lstrip s = s.
Proof.
  destruct s as [|c s]; simpl; [reflexivity|]. intros H.
  apply andb_prop in H as [Hc _]. apply digit_props in Hc as (-> & _). reflexivity.
Qed.

Lemma strip_digits (s : string) :
  all_chars PyStr.is_digit s = true -> PyStr.strip s = s.
Proof.
  intros H. unfold PyStr.strip. rewrite (lstrip_digits s H).
  rewrite lstrip_digits by (apply all_chars_rev_str; auto).
  rewrite rev_str_rev_str. simpl. apply append_nil_r.
Qed.

Lemma int_digits_total (s : string) :
  forall acc b,
    all_chars PyStr.is_digit s = true -> s <> "" \/ b = true ->
    exists z, PyStr.int_digits s acc b = Some z.
Proof.
  induction s as [|c s IH]; intros acc b H Hb; simpl in *.
  - destruct Hb as [Hb| ->]; [congruence | eauto].
  - apply andb_prop in H as [Hc Hs]. rewrite Hc. apply IH; auto.
Qed.

Lemma int_of_digits (s : string) :
  all_chars PyStr.is_digit s = true -> s <> "" ->
  exists z, py_int (Some s) = Ok z.
Proof.
  intros H Hne. unfold py_int, PyStr.int_of_str. rewrite strip_digits by assumption.
  destruct s as [|c s]; [congruence|].
  pose proof H as H'. simpl in H'. apply andb_prop in H' as [Hc _].
  apply digit_props in Hc as (_ & -> & ->).
  assert (Hne' : String c s <> "" \/ false = true) by (left; discriminate).
  destruct (int_digits_total (String c s) 0 false H Hne') as [z Hz].
  rewrite Hz. eauto.
Qed.

(** ** Rendered times can be read back *)

Lemma all_chars_append (p : ascii -> bool) (a b : string) :
  all_chars p (a ++ b) = all_chars p a && all_chars p b.
Proof.
  induction a as [|c a IH]; simpl; [reflexivity|].
  now rewrite IH, andb_assoc.
Qed.

Lemma all_chars_weaken (p q : ascii -> bool) (s : string) :
  (forall c, p c = true -> q c = true) ->
  all_chars p s = true -> all_chars q s = true.
Proof.
  intros I. induction s as [|c s IH]; simpl; [reflexivity|].
  intros H. apply andb_prop in H as [Hc Hs]. now rewrite (I c Hc), IH.
Qed.

Lemma digit_not_colon (c : ascii) :
  PyStr.is_digit c = true -> Ascii.eqb c ":" = false.
Proof.
  destruct c as [[] [] [] [] [] [] [] []]; vm_compute; intros H;
    solve [discriminate H | reflexivity].
Qed.

Lemma uint_digits (d : Decimal.uint) :
  all_chars PyStr.is_digit (NilEmpty.string_of_uint d) = true.
Proof. induction d; simpl; auto. Qed.

Lemma nilzero_digits (d : Decimal.uint) :
  all_chars PyStr.is_digit (NilZero.string_of_uint d) = true
  /\ NilZero.string_of_uint d <> "".
Proof.
  destruct d; simpl; split; try reflexivity; try discriminate;
    apply uint_digits.
Qed.


Lemma str_of_Z_digits (z : Z) :
  0 <= z ->
  all_chars PyStr.is_digit (PyStr.str_of_Z z) = true /\ PyStr.str_of_Z z <> "".
Proof.
  intros H. unfold PyStr.str_of_Z.
  destruct z as [|p|p]; try lia; [split; [reflexivity | discriminate]|].
  cbn [Z.to_int NilZero.string_of_int]. apply nilzero_digits.
Qed.

Lemma zeros_digits (n : nat) : all_chars PyStr.is_digit (PyStr.zeros n) = true.
Proof. induction n; simpl; auto. Qed.

Lemma padded_digits (n : nat) (z : Z) :
  0 <= z ->
  all_chars PyStr.is_digit (PyStr.zeros n ++ PyStr.str_of_Z z) = true
  /\ PyStr.zeros n ++ PyStr.str_of_Z z <> "".
Proof.
  intros H. destruct (str_of_Z_digits z H) as [D N]. split.
  - now rewrite all_chars_append, zeros_digits, D.
  - destruct n; simpl; [assumption | discriminate].
Qed.

Lemma fmt02_numeral (m : Z) : numeral (PyStr.fmt02 m).
Proof.
  unfold PyStr.fmt02, numeral.
  destruct (Z.ltb_spec m 0).
  - destruct (padded_digits (1 - String.length (PyStr.str_of_Z (- m))) (- m))
      as [D N]; [lia|]. eauto.
  - destruct (padded_digits (2 - String.length (PyStr.str_of_Z m)) m)
      as [D N]; [lia|]. eauto.
Qed.

Lemma digits_no_space (s : string) :
  all_chars PyStr.is_digit s = true -> no_space s.
Proof.
  apply all_chars_weaken. intros c H.
  now destruct (digit_props c H) as (-> & _).
Qed.

Lemma digits_no_colon (s : string) :
  all_chars PyStr.is_digit s = true -> no_colon s.
Proof.
  apply all_chars_weaken. intros c H. now rewrite digit_not_colon.
Qed.

Lemma numeral_shape (s : string) :
  numeral s -> no_space s /\ no_colon s /\ s <> "".
Proof.
  intros (ds & D & N & [-> | ->]).
  - auto using digits_no_space, digits_no_colon.
  - repeat split; try discriminate; unfold no_space, no_colon; simpl;
      [apply digits_no_space | apply digits_no_colon]; assumption.
Qed.





Lemma length_rev_str (s : string) :
  forall acc,
    String.length (PyStr.rev_str s acc)
    = (String.length s + String.length acc)%nat.
Proof.
  induction s as [|c s IH]; intros acc; simpl; [reflexivity|].
  rewrite IH. simpl. lia.
Qed.

Lemma rev_str_nonempty (s : string) : s <> "" -> PyStr.rev_str s "" <> "".
Proof.
  intros N E. apply (f_equal String.length) in E.
  rewrite length_rev_str in E. destruct s; [congruence | simpl in E; lia].
Qed.

Lemma split_ws_aux_run (s : string) :
  forall cur rest,
    no_space s ->
    PyStr.split_ws_aux (s ++ rest) cur
    = PyStr.split_ws_aux rest (PyStr.rev_str s cur).
Proof.
  unfold no_space. induction s as [|c s IH]; intros cur rest H; simpl in *;
    [reflexivity|].
  apply andb_prop in H as [Hc Hs]. destruct (PyStr.is_space c); [discriminate|].
  now apply IH.
Qed.

Lemma split_ws_one (s : string) :
  no_space s -> s <> "" -> PyStr.split_ws s = [s].
Proof.
  intros H N. unfold PyStr.split_ws.
  rewrite <- (append_nil_r s) at 1. rewrite split_ws_aux_run by assumption.
  simpl. pose proof (rev_str_nonempty s N).
  destruct (PyStr.rev_str s "") eqn:E; [congruence|].
  rewrite <- E, rev_str_rev_str. simpl. now rewrite append_nil_r.
Qed.


Lemma split_on_aux_run (s : string) :
  forall cur rest,
    no_colon s ->
    PyStr.split_on_aux ":" (s ++ rest) cur
    = PyStr.split_on_aux ":" rest (PyStr.rev_str s cur).
Proof.
  unfold no_colon. induction s as [|c s IH]; intros cur rest H; simpl in *;
    [reflexivity|].
  apply andb_prop in H as [Hc Hs]. destruct (Ascii.eqb c ":"); [discriminate|].
  now apply IH.
Qed.

Lemma split_on_two (a b : string) :
  no_colon a -> no_colon b -> PyStr.split_on ":" (a ++ ":" ++ b) = [a; b].
Proof.
  intros Ha Hb. unfold PyStr.split_on.
  rewrite split_on_aux_run by assumption.
  change (":" ++ b) with (String ":" b). cbn [PyStr.split_on_aux].
  rewrite Ascii.eqb_refl, rev_str_rev_str. simpl append. rewrite append_nil_r.
  f_equal. rewrite <- (append_nil_r b) at 1.
  rewrite split_on_aux_run by assumption. simpl.
  rewrite rev_str_rev_str. simpl. now rewrite append_nil_r.
Qed.





(** ** The recognisers never raise *)



Lemma digit_bound_int (m : caps) (n : nat) :
  digit_bound m n -> exists z, py_int (group m n) = Ok z.
Proof. intros (h & -> & D & N). now apply int_of_digits. Qed.

Lemma groupless_Lit (s : string) : groupless (Lit s) = true.
Proof.
  induction s as [|c s IH]; [reflexivity|].
  destruct s; [reflexivity|]. simpl in *. exact IH.
Qed.

Lemma nonempty_of_length (w : string) (n : nat) :
  (S n <= String.length w)%nat -> w <> "".
Proof. intros L ->. simpl in L. lia. Qed.

(** Takes a match of a sequence apart, part by part. *)
Ltac split_seq :=
  repeat match goal with
  | M : matches _ (seqs (_ :: _)) _ _ _ |- _ =>
      apply matches_seqs_cons in M; destruct M as (? & ? & ? & _ & ? & M)
  | M : matches _ (seqs []) _ _ _ |- _ => destruct M as [_ ->]
  end.

(** Reads off the captures of the parts. *)
Ltac read_caps :=
  repeat match goal with
  | M : matches _ (Grp _ (Rep _ _ _ _)) _ _ _ |- _ =>
      destruct M as (? & (? & ? & _ & ->) & ->)
  | M : matches _ (Grp _ _) _ _ _ |- _ =>
      let M' := fresh "M" in
      destruct M as (? & M' & ->);
      apply groupless_caps in M'; [subst | first [reflexivity | apply groupless_Lit]]
  | M : matches ?ic ?r _ _ _ |- _ =>
      apply (groupless_caps ic r) in M;
      [subst | first [reflexivity | apply groupless_Lit]]
  end.



Lemma month_caps (ic : bool) (month_name : string) s m :
  search ic (month_pattern month_name) s = Some m -> digit_bound m 1.
Proof.
  intros H. apply search_sound in H as (p & w & q & _ & M).
  unfold month_pattern, plus in M. split_seq. read_caps.
  eexists; simpl; repeat split; eauto using nonempty_of_length.
Qed.



(** ** Dates that stay representable *)





Lemma days_until_range (day_num : Z) (today : Cal.date) :
  1 <= days_until day_num today <= 7.
Proof.
  unfold days_until.
  pose proof (Z.mod_pos_bound (day_num - Cal.weekday today) 7 ltac:(lia)).
  destruct (Z.eqb_spec ((day_num - Cal.weekday today) mod 7) 0); lia.
Qed.

(** ** The date resolver always answers *)






(** ** The direct-parse orchestrator always answers *)





(** ** Blank prompts *)

Lemma space_props (x : ascii) :
  PyStr.is_space x = true ->
  PyStr.lower_char x = x /\ PyStr.is_digit x = false /\ PyStr.is_word x = false.
Proof.
  destruct x as [[] [] [] [] [] [] [] []]; vm_compute; intros H;
    solve [discriminate H | auto].
Qed.

Lemma chr_solid_blank (ic : bool) (c x : ascii) :
  chr_solid ic c = true -> PyStr.is_space x = true -> chr_eq ic c x = false.
Proof.
  unfold chr_solid, chr_eq. intros Hc Hx.
  destruct (space_props x Hx) as (Hl & _).
  destruct ic.
  - rewrite Hl. destruct (Ascii.eqb_spec x (PyStr.lower_char c)) as [->|]; auto.
    now rewrite Hx in Hc.
  - destruct (Ascii.eqb_spec x c) as [->|]; auto. now rewrite Hx in Hc.
Qed.

Lemma mem_char_blank (cs : string) (x : ascii) :
  all_chars (fun c => negb (PyStr.is_space c)) cs = true ->
  PyStr.is_space x = true -> mem_char x cs = false.
Proof.
  induction cs as [|c cs IH]; simpl; intros H Hx; [reflexivity|].
  apply andb_prop in H as [Hc Hcs]. rewrite IH by assumption.
  destruct (Ascii.eqb_spec x c) as [->|]; auto. now rewrite Hx in Hc.
Qed.

Lemma cls_solid_blank (cc : cclass) (x : ascii) :
  cls_solid cc = true -> PyStr.is_space x = true -> cmatch cc x = false.
Proof.
  intros Hc Hx. destruct (space_props x Hx) as (_ & Hd & Hw).
  destruct cc; simpl in *; auto; try discriminate.
  now apply mem_char_blank.
Qed.

Section Blank.
Context {A : Type}.

Lemma rep_greedy_blank (p : ascii -> bool) (s : string) :
  forall lo hi (k : string -> option A),
    (forall s', blank s' -> k s' = None) -> blank s ->
    rep_greedy p lo hi s k = None.
Proof.
  induction s as [|c s IH]; intros lo hi k Hk Hs; simpl.
  - destruct (Nat.eqb lo 0); auto.
  - pose proof Hs as Hs'. unfold blank in Hs'. simpl in Hs'.
    apply andb_prop in Hs' as [_ Hs'].
    rewrite IH by assumption. rewrite Hk by assumption.
    destruct (p c && room hi), (Nat.eqb lo 0); reflexivity.
Qed.

Lemma rep_lazy_blank (p : ascii -> bool) (s : string) :
  forall lo hi (k : string -> option A),
    (forall s', blank s' -> k s' = None) -> blank s ->
    rep_lazy p lo hi s k = None.
Proof.
  induction s as [|c s IH]; intros lo hi k Hk Hs; simpl.
  - rewrite Hk by assumption. destruct (Nat.eqb lo 0); auto.
  - pose proof Hs as Hs'. unfold blank in Hs'. simpl in Hs'.
    apply andb_prop in Hs' as [_ Hs'].
    rewrite IH by assumption. rewrite Hk by assumption.
    destruct (p c && room hi), (Nat.eqb lo 0); reflexivity.
Qed.

Lemma rep_greedy_solid (p : ascii -> bool) (s : string) :
  forall lo hi (k : string -> option A),
    (forall x, PyStr.is_space x = true -> p x = false) ->
    lo <> O -> blank s -> rep_greedy p lo hi s k = None.
Proof.
  destruct s as [|c s]; intros lo hi k Hp Hlo Hs; simpl;
    apply Nat.eqb_neq in Hlo; rewrite Hlo; [reflexivity|].
  unfold blank in Hs. simpl in Hs. apply andb_prop in Hs as [Hc _].
  now rewrite Hp.
Qed.

Lemma rep_lazy_solid (p : ascii -> bool) (s : string) :
  forall lo hi (k : string -> option A),
    (forall x, PyStr.is_space x = true -> p x = false) ->
    lo <> O -> blank s -> rep_lazy p lo hi s k = None.
Proof.
  destruct s as [|c s]; intros lo hi k Hp Hlo Hs; simpl;
    apply Nat.eqb_neq in Hlo; rewrite Hlo; [reflexivity|].
  unfold blank in Hs. simpl in Hs. apply andb_prop in Hs as [Hc _].
  now rewrite Hp.
Qed.

(** A matcher run on a blank text only ever hands blank texts on. *)
Lemma run_blank_k (ic : bool) (r : regex) :
  forall s cs (k : string -> caps -> option A),
    (forall s' cs', blank s' -> k s' cs' = None) -> blank s ->
    run ic r s cs k = None.
Proof.
  induction r as [|c|cc|r1 IH1 r2 IH2|r1 IH1 r2 IH2|r1 IH1|g lo hi cc|n r1 IH1];
    intros s cs k Hk Hs; simpl.
  - auto.
  - destruct s as [|x s]; auto. unfold blank in Hs. simpl in Hs.
    apply andb_prop in Hs as [_ Hs]. destruct (chr_eq ic c x); auto.
  - destruct s as [|x s]; auto. unfold blank in Hs. simpl in Hs.
    apply andb_prop in Hs as [_ Hs]. destruct (cmatch cc x); auto.
  - apply IH1; auto.
  - rewrite IH1, IH2; auto.
  - rewrite IH1; auto.
  - destruct g; [apply rep_greedy_blank | apply rep_lazy_blank]; auto.
  - apply IH1; auto.
Qed.

Lemma run_blank (ic : bool) (r : regex) :
  forall s cs (k : string -> caps -> option A),
    demands ic r = true -> blank s -> run ic r s cs k = None.
Proof.
  induction r as [|c|cc|r1 IH1 r2 IH2|r1 IH1 r2 IH2|r1 IH1|g lo hi cc|n r1 IH1];
    intros s cs k D Hs; simpl in *; try discriminate.
  - destruct s as [|x s]; auto. unfold blank in Hs. simpl in Hs.
    apply andb_prop in Hs as [Hx _]. now rewrite chr_solid_blank.
  - destruct s as [|x s]; auto. unfold blank in Hs. simpl in Hs.
    apply andb_prop in Hs as [Hx _]. now rewrite cls_solid_blank.
  - apply orb_prop in D as [D|D]; [now apply IH1|].
    apply run_blank_k; auto.
  - apply andb_prop in D as [D1 D2]. rewrite IH1, IH2; auto.
  - apply andb_prop in D as [Dlo Dcc].
    assert (lo <> O) by (intros ->; discriminate).
    destruct g; [apply rep_greedy_solid | apply rep_lazy_solid]; auto;
      intros x Hx; now apply cls_solid_blank.
  - apply IH1; auto.
Qed.

End Blank.

Lemma search_blank (ic : bool) (r : regex) (s : string) :
  demands ic r = true -> blank s -> search ic r s = None.
Proof.
  intros D. induction s as [|c s IH]; intros Hs; simpl.
  - now rewrite run_blank.
  - rewrite run_blank by assumption. apply IH.
    unfold blank in *. simpl in Hs. now apply andb_prop in Hs as [_ Hs].
Qed.

Lemma lower_blank (s : string) : blank s -> PyStr.lower s = s.
Proof.
  unfold blank, PyStr.lower.
  induction s as [|c s IH]; cbn [all_chars PyStr.map_str]; intros H;
    [reflexivity|].
  apply andb_prop in H as [Hc Hs]. destruct (space_props c Hc) as (-> & _).
  now rewrite IH.
Qed.

Lemma contains_blank (c : ascii) (n s : string) :
  PyStr.is_space c = false -> blank s -> PyStr.contains (String c n) s = false.
Proof.
  intros Hc. unfold blank. induction s as [|x s IH]; simpl; intros Hs; [reflexivity|].
  apply andb_prop in Hs as [Hx Hs]. rewrite IH by assumption.
  destruct (ascii_dec c x) as [->|]; [congruence | reflexivity].
Qed.

Lemma split_ws_blank (s : string) : blank s -> PyStr.split_ws s = [].
Proof.
  unfold blank, PyStr.split_ws. induction s as [|c s IH]; simpl; intros H;
    [reflexivity|].
  apply andb_prop in H as [-> Hs]. auto.
Qed.

Lemma month_loop_blank (today : Cal.date) (s : string) (d : list (string * Z)) :
  Forall (fun e => demands false (month_pattern (fst e)) = true) d ->
  blank s -> month_loop d today s = Ok None.
Proof.
  intros F Hs. induction F as [|[month_name month_num] d D F IH]; simpl;
    [reflexivity|].
  now rewrite search_blank.
Qed.

Lemma first_named_blank (s : string) (d : list (string * Z)) :
  Forall (fun e => exists c n, fst e = String c n /\ PyStr.is_space c = false) d ->
  blank s -> first_named d s = None.
Proof.
  intros F Hs. induction F as [|[day_name day_num] d (c & n & E & Hc) F IH];
    simpl in *; [reflexivity|].
  subst day_name. now rewrite contains_blank.
Qed.

Lemma parse_date_blank (today : Cal.date) (prompt : string) :
  blank prompt ->
  parse_date_from_prompt today prompt
  = (tomorrow <- plus_days today 1 ;; Ok (Cal.strftime tomorrow)).
Proof.
  intros Hs. unfold parse_date_from_prompt. rewrite lower_blank by assumption.
  rewrite !contains_blank by (auto; reflexivity).
  rewrite first_named_blank;
    [|repeat constructor; simpl; eauto | assumption].
  unfold next_day_rule, numeric_rule, iso_rule.
  rewrite !search_blank by (auto; reflexivity).
  rewrite month_loop_blank; [reflexivity | repeat constructor | assumption].
Qed.

(** C10.  For the empty prompt, and for every prompt made of white space
    only, the direct-parse path (with or without the appointment
    recogniser) returns exactly one generic task: its name is the empty
    string, it starts at "12:00 PM", ends at "1:00 PM", and its date is the
    reference date plus one day. *)
Theorem C10_blank_prompt_generic_task (with_appointment : bool)
    (today : Cal.date) (prompt : string) :
  blank prompt ->
  parse_tasks_directly with_appointment today prompt
  = (tomorrow <- plus_days today 1 ;;
     Ok [mkTask "" "12:00 PM" "1:00 PM" (Cal.strftime tomorrow)]).
Proof.
  intros Hs. unfold parse_tasks_directly.
  rewrite parse_date_blank by assumption.
  destruct (plus_days today 1) as [tomorrow|e]; [|reflexivity]. cbn [bind].
  unfold default_duration_of, recognise, generic_task, first_words.
  rewrite !search_blank by (auto; reflexivity).
  rewrite split_ws_blank by assumption.
  destruct with_appointment; reflexivity.
Qed.

Lemma C10_blank_prompt_witness :
  blank "  " /\
  parse_tasks_directly false (Cal.mkDate 2025 6 10) "  "
  = Ok [mkTask "" "12:00 PM" "1:00 PM" "2025-06-11"].
Proof.
  split; [reflexivity|].
  exact (C10_blank_prompt_generic_task false (Cal.mkDate 2025 6 10) "  " eq_refl).
Defined.

(** ** End-time calculators *)

Lemma Zrange_In (lo len : nat) (z : Z) :
  Z.of_nat lo <= z < Z.of_nat (lo + len) -> In z (Zrange lo len).
Proof.
  intros H. unfold Zrange. apply in_map_iff. exists (Z.to_nat z).
  split; [lia|]. apply in_seq. lia.
Qed.

Lemma reads_back_all :
  forallb (fun h => forallb (fun m => reads_back h m "AM" && reads_back h m "PM")
                      (Zrange 0 60))
          (Zrange 1 12) = true.
Proof. vm_compute. reflexivity. Qed.

Lemma parse_12h_fmt_time (h m : Z) (p : string) :
  valid12 h m p -> parse_12h (fmt_time h m p) = Ok (to_24h h p, m).
Proof.
  intros (Hh & Hm & Hp).
  pose proof reads_back_all as R. rewrite forallb_forall in R.
  specialize (R h (Zrange_In 1 12 h ltac:(lia))). rewrite forallb_forall in R.
  specialize (R m (Zrange_In 0 60 m ltac:(lia))).
  apply andb_prop in R as [Ra Rp].
  assert (Rb : reads_back h m p = true) by (destruct Hp as [->| ->]; assumption).
  unfold reads_back in Rb.
  destruct (parse_12h (fmt_time h m p)) as [[h24 m']|]; [|discriminate].
  apply andb_prop in Rb as [E1 E2].
  apply Z.eqb_eq in E1, E2. now subst.
Qed.

Lemma to_24h_range (h : Z) (p : string) :
  1 <= h <= 12 -> p = "AM" \/ p = "PM" ->
  0 <= to_24h h p < 24 /\ to_12h (to_24h h p) = (h, p).
Proof.
  intros Hh [-> | ->]; unfold to_24h, to_12h; simpl String.eqb; simpl andb.
  - destruct (Z.eqb_spec h 12); simpl.
    + split; [lia|]. subst. reflexivity.
    + destruct (Z.leb_spec 12 h); [lia|].
      destruct (Z.eqb_spec h 0); [lia|]. split; [lia | reflexivity].
  - destruct (Z.ltb_spec h 12); simpl.
    + destruct (Z.leb_spec 12 (h + 12)); [|lia].
      destruct (Z.ltb_spec 12 (h + 12)); [|lia].
      split; [lia|]. f_equal. lia.
    + assert (h = 12) by lia. subst. split; [lia | reflexivity].
Qed.

Lemma to_12h_range (e : Z) :
  0 <= e < 24 ->
  1 <= fst (to_12h e) <= 12
  /\ (snd (to_12h e) = "AM" \/ snd (to_12h e) = "PM")
  /\ to_24h (fst (to_12h e)) (snd (to_12h e)) = e.
Proof.
  intros He. unfold to_12h.
  destruct (Z.leb_spec 12 e).
  - destruct (Z.ltb_spec 12 e); simpl; unfold to_24h; simpl String.eqb; simpl andb.
    + destruct (Z.ltb_spec (e - 12) 12); [|lia]. repeat split; auto; lia.
    + destruct (Z.ltb_spec e 12); [lia|]. repeat split; auto; lia.
  - destruct (Z.eqb_spec e 0); simpl; unfold to_24h; simpl String.eqb; simpl andb.
    + subst. repeat split; auto; lia.
    + destruct (Z.eqb_spec e 12); [lia|]. repeat split; auto; lia.
Qed.

Lemma end_from_minutes_value (h24 m d : Z) :
  end_from_minutes h24 m (Some d)
  = Ok (fmt_time (fst (to_12h ((h24 * 60 + m + d) / 60)))
          ((h24 * 60 + m + d) mod 60)
          (snd (to_12h ((h24 * 60 + m + d) / 60)))).
Proof.
  unfold end_from_minutes. now destruct (to_12h _).
Qed.








(** ** The weekday rules *)

Lemma matches_Lit (n : string) :
  forall w cs cs', matches false (Lit n) w cs cs' -> w = n.
Proof.
  induction n as [|c n IH]; intros w cs cs' M.
  - now destruct M.
  - destruct n as [|c' n].
    + destruct M as (x & -> & E & _). simpl in E.
      apply Ascii.eqb_eq in E. now subst.
    + destruct M as (w1 & w2 & cs1 & -> & (x & -> & E & _) & M2).
      simpl in E. apply Ascii.eqb_eq in E. subst.
      apply IH in M2. now subst.
Qed.

Lemma prefix_append (n post : string) : prefix n (n ++ post) = true.
Proof.
  induction n as [|c n IH]; simpl; [now destruct post|].
  destruct (ascii_dec c c); [exact IH | congruence].
Qed.

Lemma contains_prefix (n s : string) :
  prefix n s = true -> PyStr.contains n s = true.
Proof. intros H. destruct s; cbn [PyStr.contains]; now rewrite H. Qed.

Lemma contains_middle (n : string) (pre : string) :
  forall post, PyStr.contains n (pre ++ n ++ post) = true.
Proof.
  induction pre as [|c pre IH]; intros post.
  - change ("" ++ n ++ post) with (n ++ post).
    apply contains_prefix, prefix_append.
  - change (String c pre ++ n ++ post) with (String c (pre ++ n ++ post)).
    cbn [PyStr.contains]. rewrite IH. apply orb_true_r.
Qed.

Lemma first_named_some (d : list (string * Z)) (s n : string) (k : Z) :
  In (n, k) d -> PyStr.contains n s = true -> first_named d s <> None.
Proof.
  induction d as [|[n' k'] d IH]; simpl; [tauto|].
  intros [E|I] C.
  - injection E as -> ->. rewrite C. discriminate.
  - destruct (PyStr.contains n' s); [discriminate | auto].
Qed.

(** Whenever the "next <weekday>" pattern matches, the weekday scan placed
    before it has already found a name: the rule never decides. *)
Lemma next_day_rule_is_shadowed (s : string) (m : caps) :
  search false next_day_pattern s = Some m ->
  first_named days_of_week s <> None.
Proof.
  intros H. apply search_sound in H as (pre & w & post & -> & M).
  unfold next_day_pattern in M.
  apply matches_seqs_cons in M as (w1 & x1 & c1 & -> & _ & M).
  apply matches_seqs_cons in M as (w2 & x2 & c2 & -> & _ & M).
  destruct M as (c3 & M & _).
  replace (pre ++ (w1 ++ w2 ++ x2) ++ post)
    with ((pre ++ w1 ++ w2) ++ x2 ++ post) by now rewrite !append_assoc.
  assert (G : forall n k, In (n, k) days_of_week -> x2 = n ->
                first_named days_of_week ((pre ++ w1 ++ w2) ++ x2 ++ post)
                <> None).
  { intros n k I ->. apply (first_named_some _ _ n k I), contains_middle. }
  cbn [map alts matches] in M.
  repeat (destruct M as [M|M];
          [apply matches_Lit in M; eapply G; [|exact M];
           unfold days_of_week; simpl; eauto 20|]).
  apply matches_Lit in M. eapply G; [|exact M].
  unfold days_of_week; simpl; eauto 20.
Qed.

(** C3, at the failing input.  On Tuesday 2025-06-10 the prompt "next
    monday" matches none of "today", "tomorrow", "next week"; the resolver
    answers 2025-06-16, the plain next Monday, where the claim asks for one
    week more, 2025-06-23: the scan for weekday names runs first and finds
    "monday". *)
Theorem C3_next_weekday_resolves_as_bare_weekday :
  let today := Cal.mkDate 2025 6 10 in
  PyStr.contains "today" (PyStr.lower "next monday") = false
  /\ PyStr.contains "tomorrow" (PyStr.lower "next monday") = false
  /\ PyStr.contains "next week" (PyStr.lower "next monday") = false
  /\ search false next_day_pattern (PyStr.lower "next monday")
     = Some [(1%nat, "monday")]
  /\ parse_date_from_prompt today "next monday" = Ok "2025-06-16"
  /\ next_day_rule today (PyStr.lower "next monday") = Ok (Some "2025-06-23")
  /\ parse_date_from_prompt today "next monday"
     <> (d <- plus_days today (days_until 0 today + 7) ;; Ok (Cal.strftime d)).
Proof. repeat split; vm_compute; discriminate. Qed.

(** ** Weekdays advance with the days *)

Lemma days_before_year_succ (y : Z) :
  Cal.days_before_year (y + 1)
  = Cal.days_before_year y + 365 + (if Cal.isleap y then 1 else 0).
Proof.
  unfold Cal.days_before_year, Cal.isleap.
  replace (y + 1 - 1) with y by lia.
  destruct (Z.eqb_spec (y mod 4) 0), (Z.eqb_spec (y mod 100) 0),
    (Z.eqb_spec (y mod 400) 0); simpl;
    Z.div_mod_to_equations; lia.
Qed.

Lemma month_cases (m : Z) :
  1 <= m <= 12 ->
  m = 1 \/ m = 2 \/ m = 3 \/ m = 4 \/ m = 5 \/ m = 6 \/ m = 7 \/ m = 8
  \/ m = 9 \/ m = 10 \/ m = 11 \/ m = 12.
Proof. lia. Qed.

Lemma days_before_month_succ (y m : Z) :
  1 <= m < 12 ->
  Cal.days_before_month y (m + 1) = Cal.days_before_month y m + Cal.last_day y m.
Proof.
  intros H. unfold Cal.days_before_month, Cal.last_day.
  destruct (month_cases m ltac:(lia)) as
    [->|[->|[->|[->|[->|[->|[->|[->|[->|[->|[->| ->]]]]]]]]]]];
    try lia; simpl; destruct (Cal.isleap y); reflexivity.
Qed.

Lemma next_day_wf (d : Cal.date) : wf_date d -> wf_date (Cal.next_day d).
Proof.
  unfold wf_date, Cal.next_day. intros (Hm & Hd).
  destruct (Z.ltb_spec (Cal.day d) (Cal.last_day (Cal.year d) (Cal.month d))).
  - simpl. lia.
  - destruct (Z.ltb_spec (Cal.month d) 12); simpl.
    + split; [lia|]. unfold Cal.last_day.
      destruct (month_cases (Cal.month d) Hm) as
        [E|[E|[E|[E|[E|[E|[E|[E|[E|[E|[E|E]]]]]]]]]]];
        rewrite E in *; simpl; try lia;
        destruct (Cal.isleap (Cal.year d)); simpl; lia.
    + unfold Cal.last_day. simpl. lia.
Qed.

Lemma toordinal_next_day (d : Cal.date) :
  wf_date d -> Cal.toordinal (Cal.next_day d) = Cal.toordinal d + 1.
Proof.
  unfold wf_date, Cal.next_day, Cal.toordinal. intros (Hm & Hd).
  destruct (Z.ltb_spec (Cal.day d) (Cal.last_day (Cal.year d) (Cal.month d))).
  - simpl. lia.
  - destruct (Z.ltb_spec (Cal.month d) 12); simpl Cal.year; simpl Cal.month;
      simpl Cal.day.
    + rewrite days_before_month_succ by lia. lia.
    + assert (E : Cal.month d = 12) by lia. rewrite E in *.
      rewrite days_before_year_succ.
      unfold Cal.days_before_month, Cal.last_day in *. simpl in *.
      destruct (Cal.isleap (Cal.year d)); lia.
Qed.

Lemma toordinal_later (n : nat) :
  forall d, wf_date d ->
    Cal.toordinal (Cal.later n d) = Cal.toordinal d + Z.of_nat n.
Proof.
  induction n as [|n IH]; intros d W; simpl Cal.later; [lia|].
  rewrite IH by now apply next_day_wf.
  rewrite toordinal_next_day by assumption. lia.
Qed.

Lemma weekday_later (n : nat) (d : Cal.date) :
  wf_date d ->
  Cal.weekday (Cal.later n d) = (Cal.weekday d + Z.of_nat n) mod 7.
Proof.
  intros W. unfold Cal.weekday. rewrite toordinal_later by assumption.
  rewrite Zplus_mod_idemp_l. f_equal. lia.
Qed.

(** The day the weekday rules aim at is the next day, after today, that
    falls on the wanted weekday. *)
Lemma days_until_hits (day_num : Z) (today : Cal.date) :
  wf_date today -> 0 <= day_num <= 6 ->
  Cal.weekday (Cal.later (Z.to_nat (days_until day_num today)) today) = day_num
  /\ forall k, 1 <= k < days_until day_num today ->
       Cal.weekday (Cal.later (Z.to_nat k) today) <> day_num.
Proof.
  intros W Hn.
  assert (Hw : 0 <= Cal.weekday today < 7)
    by (unfold Cal.weekday; apply Z.mod_pos_bound; lia).
  pose proof (days_until_range day_num today) as R.
  split.
  - rewrite weekday_later by assumption. rewrite Z2Nat.id by lia.
    unfold days_until in *.
    destruct (Z.eqb_spec ((day_num - Cal.weekday today) mod 7) 0);
      Z.div_mod_to_equations; lia.
  - intros k Hk. rewrite weekday_later by assumption. rewrite Z2Nat.id by lia.
    unfold days_until in *.
    destruct (Z.eqb_spec ((day_num - Cal.weekday today) mod 7) 0);
      Z.div_mod_to_equations; lia.
Qed.

Lemma first_named_In (d : list (string * Z)) (s : string) (e : string * Z) :
  first_named d s = Some e -> In e d /\ PyStr.contains (fst e) s = true.
Proof.
  induction d as [|[n k] d IH]; simpl; [discriminate|].
  destruct (PyStr.contains n s) eqn:C.
  - intros [= <-]. auto.
  - intros H. destruct (IH H). auto.
Qed.

Lemma days_of_week_range (n : string) (k : Z) :
  In (n, k) days_of_week -> 0 <= k <= 6.
Proof.
  unfold days_of_week. simpl. intros H.
  repeat (destruct H as [H|H]; [injection H as <- <-; lia|]). contradiction.
Qed.

(** A scan that only meets names of one weekday answers that weekday. *)
Lemma first_named_single (d : list (string * Z)) (s n : string) (k : Z) :
  In (n, k) d -> PyStr.contains n s = true ->
  (forall n' k', In (n', k') d -> PyStr.contains n' s = true -> k' = k) ->
  exists n', first_named d s = Some (n', k).
Proof.
  intros I C U.
  destruct (first_named d s) as [[n' k']|] eqn:F.
  - apply first_named_In in F as (I' & C'). simpl in C'.
    rewrite (U n' k' I' C'). eauto.
  - exfalso. now apply (first_named_some d s n k I C).
Qed.

(** C9, as the code has it.  Weekday names and abbreviations are looked
    for as substrings of the lower-cased prompt, whole words or not.  For
    every prompt that contains one of them and none of "today",
    "tomorrow", "next week", the resolver answers the next occurrence,
    one to seven days after the reference date, of the weekday of the
    first entry of the table (monday, mon, tuesday, tue, tues, ..., sunday,
    sun) whose name occurs in the prompt; that is the weekday of the
    abbreviation at hand whenever the prompt names no other weekday.  The
    answer is never the default of one day later unless that day is the
    weekday found. *)
Theorem C9_weekday_names_match_as_substrings (today : Cal.date)
    (prompt day_name : string) (day_num : Z) :
  wf_date today ->
  PyStr.contains "today" (PyStr.lower prompt) = false ->
  PyStr.contains "tomorrow" (PyStr.lower prompt) = false ->
  PyStr.contains "next week" (PyStr.lower prompt) = false ->
  In (day_name, day_num) days_of_week ->
  PyStr.contains day_name (PyStr.lower prompt) = true ->
  exists first_name first_num,
    first_named days_of_week (PyStr.lower prompt) = Some (first_name, first_num)
    /\ ((forall n' k', In (n', k') days_of_week ->
           PyStr.contains n' (PyStr.lower prompt) = true -> k' = day_num) ->
        first_num = day_num)
    /\ parse_date_from_prompt today prompt
       = (target <- plus_days today (days_until first_num today) ;;
          Ok (Cal.strftime target))
    /\ 1 <= days_until first_num today <= 7
    /\ Cal.weekday (Cal.later (Z.to_nat (days_until first_num today)) today)
       = first_num
    /\ (forall k, 1 <= k < days_until first_num today ->
          Cal.weekday (Cal.later (Z.to_nat k) today) <> first_num).
Proof.
  intros W T1 T2 T3 I C.
  destruct (first_named days_of_week (PyStr.lower prompt))
    as [[first_name first_num]|] eqn:F;
    [|now apply (first_named_some _ _ _ _ I C) in F].
  exists first_name, first_num. split; [reflexivity|].
  pose proof (first_named_In _ _ _ F) as (I' & C'). simpl in C'.
  split; [intros U; now apply (U first_name)|].
  split.
  { unfold parse_date_from_prompt. now rewrite T1, T2, T3, F. }
  split; [apply days_until_range|].
  apply days_until_hits; [assumption|]. now apply (days_of_week_range first_name).
Qed.

Lemma C9_weekday_substring_witness :
  wf_date (Cal.mkDate 2025 6 10)
  /\ PyStr.contains "sat" (PyStr.lower "a long conversation") = true
  /\ parse_date_from_prompt (Cal.mkDate 2025 6 10) "a long conversation"
     = Ok "2025-06-14".
Proof.
  assert (W : wf_date (Cal.mkDate 2025 6 10))
    by (unfold wf_date; vm_compute; repeat split; discriminate).
  split; [exact W|]. split; [reflexivity|].
  destruct (C9_weekday_names_match_as_substrings (Cal.mkDate 2025 6 10)
              "a long conversation" "sat" 5 W eq_refl eq_refl eq_refl
              ltac:(unfold days_of_week; simpl; tauto) eq_refl)
    as (fname & fnum & F & _ & P & _).
  injection F as <- <-. exact P.
Defined.

(** C9, as stated, fails when the prompt names two weekdays: "conversation
    this month" holds "sat" (in "conversation") and "mon" (in "month") and
    none of "today", "tomorrow", "next week"; on Tuesday 2025-06-10 the
    resolver answers Monday 2025-06-16, not the next Saturday,
    2025-06-14. *)
Lemma C9_first_table_entry_wins :
  let today := Cal.mkDate 2025 6 10 in
  let prompt := "conversation this month" in
  PyStr.contains "sat" (PyStr.lower prompt) = true
  /\ PyStr.contains "today" (PyStr.lower prompt) = false
  /\ PyStr.contains "tomorrow" (PyStr.lower prompt) = false
  /\ PyStr.contains "next week" (PyStr.lower prompt) = false
  /\ (target <- plus_days today (days_until 5 today) ;; Ok (Cal.strftime target))
     = Ok "2025-06-14"
  /\ parse_date_from_prompt today prompt = Ok "2025-06-16"
  /\ parse_date_from_prompt today prompt
     <> (target <- plus_days today (days_until 5 today) ;;
         Ok (Cal.strftime target)).
Proof. repeat split; vm_compute; discriminate. Qed.

(** ** The month-day rule *)

Lemma month_loop_hits (d : list (string * Z)) (today : Cal.date) (s : string) :
  month_loop d today s = Ok (first_candidate today (month_hits d s)).
Proof.
  induction d as [|[month_name month_num] d IH]; simpl; [reflexivity|].
  destruct (search false (month_pattern month_name) s) as [m|] eqn:S; [|exact IH].
  apply month_caps, digit_bound_int in S as [z ->]. cbn [bind first_candidate].
  destruct (month_day_candidate today month_num z); [reflexivity | exact IH].
Qed.




(** ** The orchestrators *)



(** ** Dates the resolver returns *)













(** ** The external-hint normaliser *)



Lemma truthy_some (x : option string) :
  truthy x = true -> exists s, x = Some s /\ s <> "" /\ py_str x = s.
Proof.
  destruct x as [[|c s]|]; simpl; try discriminate.
  intros _. eexists. repeat split. discriminate.
Qed.








(** ** Retries and fallback *)



(** * Further properties of the code *)

(** ** End times *)


(** X1.  Hour-granularity calculator: for a start time on the 12-hour clock
    and a duration that keeps the end within the same day, the end time
    is again on the 12-hour clock, lies exactly [duration_hours] hours after
    the start on the 24-hour scale, and keeps the minute. *)
Theorem X1_end_time_adds_the_hours (h m : Z) (p : string) (d : Z) :
  valid12 h m p -> 0 <= to_24h h p + d < 24 ->
  exists eh ep,
    end_time_parts h m p d = (eh, m, ep)
    /\ calculate_end_time h m p d = fmt_time eh m ep
    /\ valid12 eh m ep
    /\ to_24h eh ep = to_24h h p + d.
Proof.
  intros (Hh & Hm & Hp) Hd.
  destruct (to_12h_range (to_24h h p + d) Hd) as (V1 & V2 & T).
  unfold calculate_end_time, end_time_parts.
  destruct (to_12h (to_24h h p + d)) as [eh ep]. simpl in *.
  exists eh, ep. unfold valid12. auto 10.
Qed.

Lemma X1_end_time_witness :
  valid12 11 30 "AM" /\ calculate_end_time 11 30 "AM" 2 = "1:30 PM".
Proof.
  assert (V : valid12 11 30 "AM") by (unfold valid12; repeat split; auto; lia).
  split; [exact V|].
  destruct (X1_end_time_adds_the_hours 11 30 "AM" 2 V
              ltac:(vm_compute; split; [discriminate | reflexivity]))
    as (eh & ep & E & C & _).
  rewrite C. vm_compute in E. injection E as <- <-. reflexivity.
Defined.

(** X2.  Where the end leaves the day, neither calculator wraps.  An end at
    exactly 24:00 is rendered as 12 PM, noon; a later end is rendered with
    an hour above 12 and PM; an end before 0:00 (negative duration) with a
    negative hour and AM.  So the hour-granularity result is on the
    12-hour clock exactly when the end lies in 0..24 hours. *)
Theorem X2_end_time_outside_the_day (h m : Z) (p : string) (d dm : Z) :
  valid12 h m p ->
  let e := to_24h h p + d in
  let total := to_24h h p * 60 + m + dm in
  (e = 24 -> calculate_end_time h m p d = fmt_time 12 m "PM")
  /\ (24 < e -> calculate_end_time h m p d = fmt_time (e - 12) m "PM")
  /\ (e < 0 -> calculate_end_time h m p d = fmt_time e m "AM")
  /\ (forall eh em ep,
        end_time_parts h m p d = (eh, em, ep) ->
        (valid12 eh em ep <-> 0 <= e <= 24))
  /\ (1440 <= total ->
      Gemini.calculate_end_time_from_12h (fmt_time h m p) (Some dm)
      = Ok (fmt_time (total / 60 - 12) (total mod 60) "PM")
      /\ 12 <= total / 60 - 12)
  /\ (total < 0 ->
      Gemini.calculate_end_time_from_12h (fmt_time h m p) (Some dm)
      = Ok (fmt_time (total / 60) (total mod 60) "AM")
      /\ total / 60 < 0).
Proof.
  intros V e total. pose proof V as (Hh & Hm & Hp).
  assert (P12 : forall x, 12 < x -> to_12h x = (x - 12, "PM")).
  { intros x Hx. unfold to_12h.
    destruct (Z.leb_spec 12 x); [|lia]. destruct (Z.ltb_spec 12 x); [|lia].
    reflexivity. }
  assert (N12 : forall x, x < 0 -> to_12h x = (x, "AM")).
  { intros x Hx. unfold to_12h.
    destruct (Z.leb_spec 12 x); [lia|]. destruct (Z.eqb_spec x 0); [lia|].
    reflexivity. }
  unfold calculate_end_time, end_time_parts. fold e.
  split; [intros ->; reflexivity|].
  split; [intros He; now rewrite (P12 e) by lia|].
  split; [intros He; now rewrite (N12 e He)|].
  split.
  { intros eh em ep E.
    destruct (Z_lt_le_dec e 0) as [Hn|Hn].
    { rewrite (N12 e Hn) in E. injection E as <- <- <-.
      unfold valid12. split; intros; lia. }
    destruct (Z_lt_le_dec 24 e) as [Hb|Hb].
    { rewrite (P12 e) in E by lia. injection E as <- <- <-.
      unfold valid12. split; intros; lia. }
    destruct (Z.eq_dec e 24) as [E24|E24].
    { rewrite E24 in E. injection E as <- <- <-.
      unfold valid12. split; intros; repeat split; auto; lia. }
    destruct (to_12h_range e ltac:(lia)) as (V1 & V2 & _).
    destruct (to_12h e) as [eh' ep']. injection E as <- <- <-. simpl in *.
    unfold valid12. split; intros; repeat split; auto; lia. }
  assert (G : Gemini.calculate_end_time_from_12h (fmt_time h m p) (Some dm)
              = Ok (fmt_time (fst (to_12h (total / 60))) (total mod 60)
                      (snd (to_12h (total / 60))))).
  { unfold Gemini.calculate_end_time_from_12h.
    rewrite parse_12h_fmt_time by assumption. cbn [bind fst snd].
    apply end_from_minutes_value. }
  split; intros Ht.
  - assert (Hq : 24 <= total / 60) by (apply Z.div_le_lower_bound; lia).
    rewrite G, (P12 (total / 60)) by lia. split; [reflexivity | lia].
  - assert (Hq : total / 60 < 0) by (apply Z.div_lt_upper_bound; lia).
    rewrite G, (N12 (total / 60)) by lia. split; [reflexivity | lia].
Qed.

Lemma X2_end_time_witness :
  valid12 11 0 "PM"
  /\ calculate_end_time 11 0 "PM" 1 = "12:00 PM"
  /\ Gemini.calculate_end_time_from_12h "11:00 PM" (Some 90) = Ok "12:30 PM".
Proof.
  assert (V : valid12 11 0 "PM") by (unfold valid12; repeat split; auto; lia).
  split; [exact V|].
  destruct (X2_end_time_outside_the_day 11 0 "PM" 1 90 V)
    as (E24 & _ & _ & _ & Em & _).
  split; [exact (E24 eq_refl)|].
  exact (proj1 (Em ltac:(vm_compute; discriminate))).
Defined.

Lemma minutes_value (h m : Z) (p : string) (d : Z) :
  valid12 h m p ->
  let total := to_24h h p * 60 + m + d in
  Gemini.calculate_end_time_from_12h (fmt_time h m p) (Some d)
  = Ok (fmt_time (fst (to_12h (total / 60))) (total mod 60)
          (snd (to_12h (total / 60)))).
Proof.
  intros V total. unfold Gemini.calculate_end_time_from_12h.
  rewrite parse_12h_fmt_time by assumption. cbn [bind fst snd].
  apply end_from_minutes_value.
Qed.

Lemma minutes_within_the_day (h m : Z) (p : string) (d : Z) :
  valid12 h m p -> 0 <= to_24h h p * 60 + m + d < 1440 ->
  exists eh em ep,
    Gemini.calculate_end_time_from_12h (fmt_time h m p) (Some d)
    = Ok (fmt_time eh em ep)
    /\ Robust.calculate_end_time_from_12h (fmt_time h m p) (Some d)
       = fmt_time eh em ep
    /\ valid12 eh em ep
    /\ to_24h eh ep * 60 + em = to_24h h p * 60 + m + d.
Proof.
  intros V Hd. pose proof (minutes_value h m p d V) as G. cbn zeta in G.
  set (total := to_24h h p * 60 + m + d) in *.
  assert (Hq : 0 <= total / 60 < 24)
    by (split; [apply Z.div_pos; lia | apply Z.div_lt_upper_bound; lia]).
  pose proof (Z.mod_pos_bound total 60 ltac:(lia)) as Hr.
  pose proof (Z.div_mod total 60 ltac:(lia)) as Hdm.
  destruct (to_12h_range (total / 60) Hq) as (V1 & V2 & T).
  exists (fst (to_12h (total / 60))), (total mod 60), (snd (to_12h (total / 60))).
  split; [exact G|].
  split; [unfold Robust.calculate_end_time_from_12h; now rewrite G|].
  split; [unfold valid12; repeat split; auto; lia|].
  rewrite T. lia.
Qed.

(** X3.  Minute-granularity calculator: for a start time on the 12-hour
    clock, rendered as the resolvers render it, and a duration in minutes
    that keeps the end within the same day, both variants return a time on
    the 12-hour clock that lies exactly [duration_minutes] minutes after
    the start. *)
Theorem X3_end_time_adds_the_minutes (h m : Z) (p : string) (d : Z) :
  valid12 h m p -> 0 <= to_24h h p * 60 + m + d < 1440 ->
  exists eh em ep,
    Gemini.calculate_end_time_from_12h (fmt_time h m p) (Some d)
    = Ok (fmt_time eh em ep)
    /\ Robust.calculate_end_time_from_12h (fmt_time h m p) (Some d)
       = fmt_time eh em ep
    /\ valid12 eh em ep
    /\ to_24h eh ep * 60 + em = to_24h h p * 60 + m + d.
Proof.
  intros V Hd.
  set (total := to_24h h p * 60 + m + d) in *.
  assert (Hq : 0 <= total / 60 < 24)
    by (split; [apply Z.div_pos; lia | apply Z.div_lt_upper_bound; lia]).
  destruct (to_12h_range (total / 60) Hq) as (V1 & V2 & T).
  exists (fst (to_12h (total / 60))), (total mod 60), (snd (to_12h (total / 60))).
  assert (G : Gemini.calculate_end_time_from_12h (fmt_time h m p) (Some d)
              = Ok (fmt_time (fst (to_12h (total / 60))) (total mod 60)
                      (snd (to_12h (total / 60)))))
    by exact (minutes_value h m p d V).
  split; [exact G|].
  split; [unfold Robust.calculate_end_time_from_12h; now rewrite G|].
  split.
  - unfold valid12. pose proof (Z.mod_pos_bound total 60 ltac:(lia)).
    repeat split; auto; lia.
  - rewrite T. pose proof (Z.div_mod total 60 ltac:(lia)). lia.
Qed.

Lemma X3_end_time_witness :
  valid12 9 45 "AM"
  /\ Gemini.calculate_end_time_from_12h "9:45 AM" (Some 150) = Ok "12:15 PM".
Proof.
  assert (V : valid12 9 45 "AM") by (unfold valid12; repeat split; auto; lia).
  split; [exact V|].
  destruct (X3_end_time_adds_the_minutes 9 45 "AM" 150 V
              ltac:(vm_compute; split; [discriminate | reflexivity]))
    as (eh & em & ep & G & R & _).
  transitivity (Ok (fmt_time eh em ep)); [exact G|].
  rewrite <- R. reflexivity.
Defined.

(** ** The normaliser's times *)




Lemma two_ints_nonempty (s : string) (hm : Z * Z) :
  two_ints s = Ok hm -> truthy (Some s) = true.
Proof. destruct s; [discriminate | reflexivity]. Qed.

(** X5.  A hint with an event name, a date, a start time that reads as
    hour and minute of the 24-hour clock, and a duration (60 minutes when
    the key is missing) that keeps the end within the same day: both
    normalisers return exactly one Task, named and dated as the hint says,
    whose start time is the hint's time on the 12-hour clock and whose end
    time lies the duration after it. *)
Theorem X5_normaliser_times (today : Cal.date) (analysis : Hint)
    (prompt event_name d st : string) (H M dur : Z) :
  h_event_name analysis = Some event_name -> event_name <> "" ->
  h_date analysis = Some d -> d <> "" ->
  h_start_time analysis = Some st -> two_ints st = Ok (H, M) ->
  0 <= H < 24 -> 0 <= M <= 59 ->
  get_duration (h_duration analysis) = Some dur ->
  0 <= H * 60 + M + dur < 1440 ->
  exists sh sp eh em ep,
    Robust.convert_analysis_to_tasks today analysis prompt
    = [mkTask event_name (fmt_time sh M sp) (fmt_time eh em ep) d]
    /\ Gemini.convert_analysis_to_tasks analysis prompt
       = Ok [mkTask event_name (fmt_time sh M sp) (fmt_time eh em ep) d]
    /\ valid12 sh M sp /\ to_24h sh sp = H
    /\ valid12 eh em ep /\ to_24h eh ep * 60 + em = H * 60 + M + dur.
Proof.
  intros En Ene Dn Dne Sn T HH HM Du Hd.
  destruct (to_12h_range H HH) as (V1 & V2 & T24).
  assert (V : valid12 (fst (to_12h H)) M (snd (to_12h H)))
    by (unfold valid12; auto).
  destruct (minutes_within_the_day _ M _ dur V ltac:(rewrite T24; exact Hd))
    as (eh & em & ep & G & R & Ve & Te).
  rewrite T24 in Te.
  exists (fst (to_12h H)), (snd (to_12h H)), eh, em, ep.
  assert (S : resolve_start_time analysis prompt
              = Ok (fmt_time (fst (to_12h H)) M (snd (to_12h H)))).
  { unfold resolve_start_time. rewrite Sn, (two_ints_nonempty st _ T).
    unfold hint_time_to_12h. cbn [py_str]. rewrite T. cbn [bind].
    now destruct (to_12h H). }
  assert (Tn : truthy (h_event_name analysis) = true)
    by (rewrite En; destruct event_name; [congruence | reflexivity]).
  assert (Td : truthy (h_date analysis) = true)
    by (rewrite Dn; destruct d; [congruence | reflexivity]).
  split.
  { unfold Robust.convert_analysis_to_tasks. rewrite Tn, Td. cbn [negb bind].
    rewrite S. cbn [bind]. rewrite Du, R, En, Dn. reflexivity. }
  split.
  { unfold Gemini.convert_analysis_to_tasks. rewrite Tn, Td. cbn [andb negb].
    rewrite S. cbn [bind]. rewrite Du, G, En, Dn. reflexivity. }
  auto.
Qed.

Lemma X5_normaliser_witness :
  let today := Cal.mkDate 2025 6 10 in
  let analysis := mkHint (Some "Review") (Some "2025-07-01") (Some "14:30") DAbsent in
  two_ints "14:30" = Ok (14, 30)
  /\ Gemini.convert_analysis_to_tasks analysis "review"
     = Ok [mkTask "Review" "2:30 PM" "3:30 PM" "2025-07-01"].
Proof.
  intros today analysis. split; [reflexivity|].
  destruct (X5_normaliser_times today analysis "review" "Review" "2025-07-01"
              "14:30" 14 30 60 eq_refl ltac:(discriminate) eq_refl
              ltac:(discriminate) eq_refl eq_refl ltac:(lia) ltac:(lia) eq_refl
              ltac:(lia))
    as (sh & sp & eh & em & ep & _ & G & _).
  pose proof G as G'. vm_compute in G'. rewrite G. symmetry. exact G'.
Defined.

(** ** Words and names *)

Lemma split_ws_aux_words (s : string) :
  forall cur,
    no_space cur ->
    Forall (fun w => no_space w /\ w <> "") (PyStr.split_ws_aux s cur).
Proof.
  assert (W : forall cur, no_space cur -> cur <> "" ->
               no_space (PyStr.rev_str cur "") /\ PyStr.rev_str cur "" <> "").
  { intros cur H N. split.
    - unfold no_space in *. now apply all_chars_rev_str.
    - now apply rev_str_nonempty. }
  induction s as [|c s IH]; intros cur H; cbn [PyStr.split_ws_aux].
  - destruct cur as [|x cur]; [constructor|].
    constructor; [|constructor]. now apply W.
  - destruct (PyStr.is_space c) eqn:E.
    + destruct cur as [|x cur]; [now apply IH|].
      constructor; [now apply W | now apply IH].
    + apply IH. unfold no_space in *. cbn [all_chars]. now rewrite E.
Qed.

Lemma split_ws_words (s : string) :
  Forall (fun w => no_space w /\ w <> "") (PyStr.split_ws s).
Proof. now apply split_ws_aux_words. Qed.

Lemma split_ws_join (ws : list string) :
  Forall (fun w => no_space w /\ w <> "") ws ->
  PyStr.split_ws (PyStr.join_sp ws) = ws.
Proof.
  induction 1 as [|w ws [Hw Nw] F IH]; [reflexivity|].
  destruct ws as [|w' ws].
  - now apply split_ws_one.
  - change (PyStr.join_sp (w :: w' :: ws))
      with (w ++ " " ++ PyStr.join_sp (w' :: ws)).
    unfold PyStr.split_ws in *. rewrite split_ws_aux_run by assumption.
    change (" " ++ PyStr.join_sp (w' :: ws))
      with (String " " (PyStr.join_sp (w' :: ws))).
    cbn [PyStr.split_ws_aux]. change (PyStr.is_space " ") with true. cbn iota.
    pose proof (rev_str_nonempty w Nw).
    destruct (PyStr.rev_str w "") eqn:E; [congruence|].
    rewrite <- E, rev_str_rev_str. simpl append. rewrite append_nil_r.
    now rewrite IH.
Qed.

Lemma firstn_min_length {A} (n : nat) (l : list A) :
  firstn (Nat.min n (List.length l)) l = firstn n l.
Proof.
  revert l. induction n as [|n IH]; intros [|x l]; simpl; try reflexivity.
  now rewrite IH.
Qed.

Lemma Forall_firstn' {A} (P : A -> Prop) (n : nat) (l : list A) :
  Forall P l -> Forall P (firstn n l).
Proof.
  intros F. revert n. induction F; intros [|n]; simpl; constructor; auto.
Qed.

Lemma split_ws_aux_nil (s : string) :
  forall cur, PyStr.split_ws_aux s cur = [] -> cur = "" /\ blank s.
Proof.
  unfold blank. induction s as [|c s IH]; intros cur; cbn [PyStr.split_ws_aux all_chars].
  - destruct cur; [auto | discriminate].
  - destruct (PyStr.is_space c).
    + destruct cur; [|discriminate]. intros H. now apply IH in H as [_ ->].
    + intros H. apply IH in H as [H _]. discriminate.
Qed.

Lemma first_words_split (prompt : string) :
  PyStr.split_ws (first_words prompt) = firstn 5 (PyStr.split_ws prompt).
Proof.
  unfold first_words. rewrite firstn_min_length.
  apply split_ws_join, Forall_firstn', split_ws_words.
Qed.

Lemma first_words_empty (prompt : string) :
  first_words prompt = "" <-> blank prompt.
Proof.
  split.
  - intros E. pose proof (first_words_split prompt) as S. rewrite E in S.
    destruct (PyStr.split_ws prompt) as [|w ws] eqn:W; [|discriminate].
    now apply split_ws_aux_nil in W as [_ W].
  - intros B. unfold first_words. now rewrite split_ws_blank.
Qed.

(** X6.  The name of the generic task.  Splitting the first-words name at
    white space gives back exactly the first five words of the prompt (all
    of them when there are fewer), so the name has at most five words, has
    no white space but single spaces between words, taking the first words
    of it again changes nothing, and it is empty exactly when the prompt is
    empty or white space only. *)
Theorem X6_first_words_are_the_first_five (prompt : string) :
  PyStr.split_ws (first_words prompt) = firstn 5 (PyStr.split_ws prompt)
  /\ (List.length (PyStr.split_ws (first_words prompt)) <= 5)%nat
  /\ first_words (first_words prompt) = first_words prompt
  /\ (first_words prompt = "" <-> blank prompt).
Proof.
  pose proof (first_words_split prompt) as S.
  split; [exact S|]. split; [rewrite S; apply firstn_le_length|].
  split; [|apply first_words_empty].
  unfold first_words at 1. rewrite S, firstn_min_length, firstn_firstn.
  change (Nat.min 5 5) with 5%nat.
  unfold first_words. now rewrite firstn_min_length.
Qed.

(** ** The direct-parse list *)









(** ** The analyser's rule-based stand-in *)


Lemma degraded_analysis (model_ready : bool) (oracle : nat -> option Hint)
    (today : Cal.date) (p : string) :
  model_ready = false
  \/ (oracle 0%nat = None /\ oracle 1%nat = None /\ oracle 2%nat = None) ->
  Robust.analyze_message true model_ready oracle today p
  = (h <- Robust._fallback_extraction today p ;; Ok (Some h)).
Proof.
  unfold Robust.analyze_message.
  destruct model_ready; [|reflexivity]. intros [E|(E0 & E1 & E2)]; [discriminate|].
  cbn [negb orb Robust.attempts Nat.eqb]. now rewrite E0, E1, E2.
Qed.



Lemma int_fmt02_all :
  forallb (fun h => match py_int (Some (PyStr.fmt02 h)) with
                    | Ok z => z =? h
                    | Raise _ => false
                    end) (Zrange 0 24) = true.
Proof. vm_compute. reflexivity. Qed.

Lemma int_fmt02 (h : Z) : 0 <= h < 24 -> py_int (Some (PyStr.fmt02 h)) = Ok h.
Proof.
  intros Hh. pose proof int_fmt02_all as R. rewrite forallb_forall in R.
  specialize (R h (Zrange_In 0 24 h ltac:(lia))).
  destruct (py_int (Some (PyStr.fmt02 h))) as [z|]; [|discriminate].
  apply Z.eqb_eq in R. now subst.
Qed.

Lemma degraded_schedule (model_ready : bool) (oracle : nat -> option Hint)
    (today : Cal.date) (p : string) (hint : Hint) (t : Task) (ts : list Task) :
  model_ready = false
  \/ (oracle 0%nat = None /\ oracle 1%nat = None /\ oracle 2%nat = None) ->
  Robust._fallback_extraction today p = Ok hint ->
  Robust.convert_analysis_to_tasks today hint p = t :: ts ->
  Robust.schedule true model_ready oracle today p = Ok (t :: ts).
Proof.
  intros Dg F C. unfold Robust.schedule.
  rewrite (degraded_analysis _ _ _ _ Dg), F. cbn [bind try_except].
  now rewrite C.
Qed.

(** X9.  The degraded mode keeps the prompt's clock time.  When the
    stand-in reads from the prompt a time whose hour is 1..12 and whose
    minutes are 0..59, and its duration (60 minutes, or what the prompt's
    "for N hours/minutes" gives) keeps the end within the same day, the
    one Task the endpoint returns starts at that time, written with two
    minute digits, and ends the duration later. *)
Theorem X9_degraded_mode_times (model_ready : bool)
    (oracle : nat -> option Hint) (today : Cal.date) (prompt : string)
    (hint : Hint) (m : caps) (H M dur : Z) :
  model_ready = false
  \/ (oracle 0%nat = None /\ oracle 1%nat = None /\ oracle 2%nat = None) ->
  Robust._fallback_extraction today prompt = Ok hint ->
  h_duration hint = DInt dur ->
  search true time_pattern prompt = Some m ->
  py_int (group m 1) = Ok H -> 1 <= H <= 12 ->
  py_int (Some (or_else (group m 2) "00")) = Ok M -> 0 <= M <= 59 ->
  exists P d,
    py_upper (group m 3) = Ok P /\ valid12 H M P
    /\ parse_date_from_prompt today prompt = Ok d
    /\ (0 <= to_24h H P * 60 + M + dur < 1440 ->
        exists eh em ep,
          Robust.schedule true model_ready oracle today prompt
          = Ok [mkTask (first_words prompt) (fmt_time H M P)
                  (fmt_time eh em ep) d]
          /\ valid12 eh em ep
          /\ to_24h eh ep * 60 + em = to_24h H P * 60 + M + dur).
Proof.
  intros Dg F Du S IH HH IM HM.
  assert (NB : ~ blank prompt).
  { intros B. rewrite search_blank in S; [discriminate | reflexivity | exact B]. }
  assert (NE : first_words prompt <> "")
    by (intros E; now apply NB, first_words_empty).
  pose proof S as S'.
  apply (timed_pattern_caps true [] 1) in S'
    as (h & mi & ap & rest & -> & Dh & Nh & Dmi & Hap).
  cbn [group Nat.eqb] in IH, IM |- *. cbn [py_upper].
  assert (V : valid12 H M (PyStr.upper ap)) by (unfold valid12; auto).
  destruct (to_24h_range H (PyStr.upper ap) HH Hap) as [R24 T12].
  pose proof F as F0. unfold Robust._fallback_extraction in F.
  destruct (parse_date_from_prompt today prompt) as [d|] eqn:D; [|discriminate].
  rewrite S in F. cbn [bind group Nat.eqb py_upper] in F. rewrite IH in F.
  cbn [bind] in F.
  destruct (match search true Robust.fallback_duration_pattern prompt with
            | Some _ => _ | None => _ end) as [dur'|]; [|discriminate].
  cbn [bind] in F. injection F as <-. cbn [h_duration] in Du.
  injection Du as ->.
  exists (PyStr.upper ap), d. split; [reflexivity|]. split; [exact V|].
  split; [reflexivity|]. intros Hd.
  destruct (minutes_within_the_day H M (PyStr.upper ap) dur V Hd)
    as (eh & em & ep & G & R & Ve & Te).
  exists eh, em, ep. split; [|auto].
  eapply degraded_schedule; [exact Dg | exact F0 |].
  set (minutes := or_else (Some mi) "00") in *.
  assert (Cm : no_colon minutes).
  { subst minutes. destruct mi as [|c mi]; [reflexivity|].
    now apply digits_no_colon. }
  assert (T : two_ints (PyStr.fmt02 (to_24h H (PyStr.upper ap)) ++ ":" ++ minutes)
              = Ok (to_24h H (PyStr.upper ap), M)).
  { unfold two_ints. rewrite split_on_two;
      [|apply numeral_shape, fmt02_numeral | exact Cm].
    rewrite int_fmt02 by exact R24. cbn [bind]. rewrite IM. reflexivity. }
  destruct (PyStr.split_ws prompt) as [|w ws] eqn:W.
  { exfalso. apply NB. now apply split_ws_aux_nil in W as [_ W]. }
  unfold Robust.convert_analysis_to_tasks, resolve_start_time, hint_time_to_12h.
  cbn [h_event_name h_date h_start_time h_duration py_str get_duration].
  change (match mi with "" => "00" | String _ _ => mi end) with minutes.
  change (String ":" minutes) with (":" ++ minutes).
  rewrite (two_ints_nonempty _ _ T), T. cbn [bind]. rewrite T12.
  cbn [bind try_except].
  rewrite R, D.
  destruct (first_words prompt) as [|c n]; [congruence|]. cbn [truthy negb].
  now destruct d.
Qed.

Lemma X9_degraded_times_witness :
  let today := Cal.mkDate 2025 6 10 in
  let prompt := "Call the bank at 03:5 pm for 45 minutes" in
  (exists hint m,
     Robust._fallback_extraction today prompt = Ok hint
     /\ h_duration hint = DInt 45
     /\ search true time_pattern prompt = Some m
     /\ py_int (group m 1) = Ok 3
     /\ py_int (Some (or_else (group m 2) "00")) = Ok 5)
  /\ Robust.schedule true true (fun _ => None) today prompt
     = Ok [mkTask "Call the bank at 03:5" "3:05 PM" "3:50 PM" "2025-06-11"].
Proof.
  intros today prompt.
  destruct (Robust._fallback_extraction today prompt) as [hint|] eqn:F;
    [|vm_compute in F; discriminate].
  destruct (search true time_pattern prompt) as [m|] eqn:S;
    [|vm_compute in S; discriminate].
  assert (Du : h_duration hint = DInt 45)
    by (vm_compute in F; injection F as <-; reflexivity).
  assert (I1 : py_int (group m 1) = Ok 3)
    by (vm_compute in S; injection S as <-; reflexivity).
  assert (I2 : py_int (Some (or_else (group m 2) "00")) = Ok 5)
    by (vm_compute in S; injection S as <-; reflexivity).
  split; [exists hint, m; auto|].
  destruct (X9_degraded_mode_times true (fun _ => None) today prompt hint m
              3 5 45 (or_intror (conj eq_refl (conj eq_refl eq_refl)))
              F Du S I1 ltac:(lia) I2 ltac:(lia))
    as (P & d & U & _ & _ & E).
  assert (EP : P = "PM")
    by (vm_compute in S; injection S as <-; vm_compute in U; congruence).
  subst P.
  destruct E as (eh & em & ep & E & _); [vm_compute; split; [discriminate | reflexivity]|].
  pose proof E as E'. vm_compute in E'. rewrite E. symmetry. exact E'.
Defined.

(** ** The matcher finds every match *)

Lemma matches_any_caps (ic : bool) (r : regex) :
  forall w cs cs', matches ic r w cs cs' ->
    forall c, exists c', matches ic r w c c'.
Proof.
  induction r as [|x|cc|r1 IH1 r2 IH2|r1 IH1 r2 IH2|r1 IH1|g lo hi cc|n r1 IH1];
    intros w cs cs' M c; cbn [matches] in *.
  - destruct M as [-> _]. eauto.
  - destruct M as (y & -> & E & _). eauto 6.
  - destruct M as (y & -> & E & _). eauto 6.
  - destruct M as (w1 & w2 & cs1 & -> & M1 & M2).
    destruct (IH1 _ _ _ M1 c) as [c1 N1].
    destruct (IH2 _ _ _ M2 c1) as [c2 N2]. eauto 8.
  - destruct M as [M|M].
    + destruct (IH1 _ _ _ M c) as [c1 N1]. eauto.
    + destruct (IH2 _ _ _ M c) as [c1 N1]. eauto.
  - destruct M as [M|[-> _]].
    + destruct (IH1 _ _ _ M c) as [c1 N1]. eauto.
    + eauto.
  - destruct M as (D & L & W & _). eauto 6.
  - destruct M as (cs1 & M & _). destruct (IH1 _ _ _ M c) as [c1 N1]. eauto.
Qed.

Section Completeness.
Context {A : Type}.

Lemma within_less (hi : option nat) (n : nat) :
  within hi (S n) -> room hi = true /\ within (less hi) n.
Proof. destruct hi as [[|h]|]; simpl; intros H; split; auto; lia. Qed.

Lemma rep_greedy_complete (p : ascii -> bool) (w : string) :
  forall lo hi rest (k : string -> option A),
    all_chars p w = true -> (lo <= String.length w)%nat ->
    within hi (String.length w) -> k rest <> None ->
    rep_greedy p lo hi (w ++ rest) k <> None.
Proof.
  induction w as [|c w IH]; intros lo hi rest k D L W K.
  - simpl in L. assert (lo = 0%nat) as -> by lia.
    change ("" ++ rest) with rest.
    destruct rest as [|x rest]; cbn [rep_greedy Nat.eqb]; [exact K|].
    destruct (p x && room hi); [|exact K].
    destruct (rep_greedy p _ _ rest k); [discriminate | exact K].
  - cbn [all_chars] in D. apply andb_prop in D as [Dc D].
    cbn [String.length] in L, W. apply within_less in W as [R W].
    change (String c w ++ rest) with (String c (w ++ rest)).
    cbn [rep_greedy]. rewrite Dc, R. cbn [andb].
    specialize (IH (Nat.pred lo) (less hi) rest k D ltac:(lia) W K).
    destruct (rep_greedy p (Nat.pred lo) (less hi) (w ++ rest) k);
      [discriminate | congruence].
Qed.

Lemma rep_lazy_complete (p : ascii -> bool) (w : string) :
  forall lo hi rest (k : string -> option A),
    all_chars p w = true -> (lo <= String.length w)%nat ->
    within hi (String.length w) -> k rest <> None ->
    rep_lazy p lo hi (w ++ rest) k <> None.
Proof.
  induction w as [|c w IH]; intros lo hi rest k D L W K.
  - simpl in L. assert (lo = 0%nat) as -> by lia.
    change ("" ++ rest) with rest.
    destruct rest as [|x rest]; cbn [rep_lazy Nat.eqb];
      (destruct (k _); [discriminate | congruence]).
  - cbn [all_chars] in D. apply andb_prop in D as [Dc D].
    cbn [String.length] in L, W. apply within_less in W as [R W].
    change (String c w ++ rest) with (String c (w ++ rest)).
    cbn [rep_lazy]. rewrite Dc, R. cbn [andb].
    destruct (if Nat.eqb lo 0 then k (String c (w ++ rest)) else None);
      [discriminate|].
    now apply IH; try lia.
Qed.

Lemma run_complete (ic : bool) (r : regex) :
  forall w cs0 cs0', matches ic r w cs0 cs0' ->
    forall rest cs (k : string -> caps -> option A),
      (forall c, k rest c <> None) ->
      run ic r (w ++ rest) cs k <> None.
Proof.
  induction r as [|x|cc|r1 IH1 r2 IH2|r1 IH1 r2 IH2|r1 IH1|g lo hi cc|n r1 IH1];
    intros w cs0 cs0' M rest cs k K; cbn [matches] in M; cbn [run].
  - destruct M as [-> _]. apply K.
  - destruct M as (y & -> & E & _). cbn [append]. rewrite E. apply K.
  - destruct M as (y & -> & E & _). cbn [append]. rewrite E. apply K.
  - destruct M as (w1 & w2 & cs1 & -> & M1 & M2).
    rewrite append_assoc. eapply IH1; [exact M1|].
    intros c. eapply IH2; [exact M2 | exact K].
  - destruct M as [M|M].
    + specialize (IH1 _ _ _ M rest cs k K).
      destruct (run ic r1 (w ++ rest) cs k); [discriminate | congruence].
    + destruct (run ic r1 (w ++ rest) cs k); [discriminate|].
      eapply IH2; eauto.
  - destruct M as [M|[-> _]].
    + specialize (IH1 _ _ _ M rest cs k K).
      destruct (run ic r1 (w ++ rest) cs k); [discriminate | congruence].
    + change ("" ++ rest) with rest.
      destruct (run ic r1 rest cs k); [discriminate | apply K].
  - destruct M as (D & L & W & _).
    destruct g; [apply rep_greedy_complete | apply rep_lazy_complete]; auto.
  - destruct M as (cs1 & M & _). eapply IH1; [exact M|].
    intros c. apply K.
Qed.

End Completeness.

Lemma search_here (ic : bool) (r : regex) (s : string) :
  run ic r s [] (fun _ cs => Some cs) <> None -> search ic r s <> None.
Proof.
  intros H. destruct s; cbn [search];
    (destruct (run ic r _ [] _); [discriminate | congruence]).
Qed.

(** Whatever the declarative reading matches somewhere in a string,
    [search] finds a match in that string (not necessarily the same
    one). *)
Lemma search_complete (ic : bool) (r : regex) (pre w post : string) (cs cs' : caps) :
  matches ic r w cs cs' -> search ic r (pre ++ w ++ post) <> None.
Proof.
  intros M. induction pre as [|c pre IH].
  - change ("" ++ w ++ post) with (w ++ post). apply search_here.
    eapply run_complete; [exact M | discriminate].
  - change (String c pre ++ w ++ post) with (String c (pre ++ w ++ post)).
    cbn [search]. destruct (run ic r _ [] _); [discriminate | exact IH].
Qed.

(** ** Numeric dates *)

Lemma iso_match_holds_numeric_match (w : string) (cs cs' : caps) :
  matches false iso_date_pattern w cs cs' ->
  exists a b post, w = a ++ b ++ post /\ exists c c', matches false date_pattern b c c'.
Proof.
  unfold iso_date_pattern. intros M.
  apply matches_seqs_cons in M as (w1 & x1 & c1 & -> & M1 & M).
  apply matches_seqs_cons in M as (w2 & x2 & c2 & -> & M2 & M).
  apply matches_seqs_cons in M as (w3 & x3 & c3 & -> & M3 & M).
  apply matches_seqs_cons in M as (w4 & x4 & c4 & -> & M4 & M5).
  cbn [seqs] in M5.
  destruct M3 as (c3' & (D3 & L3 & W3 & _) & _).
  destruct M5 as (c5' & (D5 & L5 & W5 & _) & _).
  exists (w1 ++ w2), (w3 ++ w4 ++ x4), "".
  split; [now rewrite !append_assoc, !append_nil_r|].
  exists [], ((2%nat, x4) :: (1%nat, w3) :: []).
  unfold date_pattern, between in *. cbn [seqs matches within] in *.
  exists w3, (w4 ++ x4), [(1%nat, w3)]. split; [reflexivity|].
  split; [exists []; repeat split; auto; lia|].
  exists w4, x4, [(1%nat, w3)]. split; [reflexivity|].
  split; [destruct M4 as (y & -> & E & _); eauto|].
  exists x4, "", [(2%nat, x4); (1%nat, w3)]. split; [now rewrite append_nil_r|].
  split; [exists [(1%nat, w3)]; repeat split; auto; lia|].
  right. auto.
Qed.

(** X10.  The [YYYY-MM-DD] rule never sees a date first.  Wherever its
    pattern matches, the pattern of the [MM/DD] rule, which is tried before
    it, matches too (the month and day of the ISO date alone already do):
    the ISO rule gets to decide only after the [MM/DD] rule has read some
    part of the prompt as a month and a day and turned it down. *)
Theorem X10_iso_rule_comes_second (prompt : string) (iso_match : caps) :
  search false iso_date_pattern prompt = Some iso_match ->
  exists date_match, search false date_pattern prompt = Some date_match.
Proof.
  intros S.
  apply search_sound in S as (pre & w & post & -> & M).
  apply iso_match_holds_numeric_match in M as (a & b & q & -> & c & c' & M).
  assert (N : search false date_pattern (pre ++ (a ++ b ++ q) ++ post) <> None).
  { replace (pre ++ (a ++ b ++ q) ++ post) with ((pre ++ a) ++ b ++ (q ++ post))
      by now rewrite !append_assoc.
    eapply search_complete, M. }
  destruct (search false date_pattern _) as [dm|]; [eauto | congruence].
Qed.

Lemma X10_iso_rule_witness :
  exists iso_match date_match,
    search false iso_date_pattern "due 2025-06-15" = Some iso_match
    /\ search false date_pattern "due 2025-06-15" = Some date_match.
Proof.
  destruct (search false iso_date_pattern "due 2025-06-15") as [m|] eqn:S;
    [|vm_compute in S; discriminate].
  destruct (X10_iso_rule_comes_second "due 2025-06-15" m S) as [dm D].
  exists m, dm. split; [reflexivity | exact D].
Defined.

Lemma contains_split (n : string) (s : string) :
  PyStr.contains n s = true -> exists pre post, s = pre ++ n ++ post.
Proof.
  assert (P : forall a b, prefix a b = true -> exists post, b = a ++ post).
  { induction a as [|x a IH]; intros b H; [exists b; reflexivity|].
    destruct b as [|y b]; [discriminate|]. simpl in H.
    destruct (ascii_dec x y) as [->|]; [|discriminate].
    destruct (IH b H) as [post ->]. exists post. reflexivity. }
  induction s as [|c s IH]; cbn [PyStr.contains]; intros H.
  - rewrite orb_false_r in H. apply P in H as [post ->]. exists "", post.
    reflexivity.
  - apply orb_prop in H as [H|H].
    + apply P in H as [post ->]. exists "", post. reflexivity.
    + destruct (IH H) as (pre & post & ->). exists (String c pre), post.
      reflexivity.
Qed.

Lemma contains_foreign (p : ascii -> bool) (n s : string) :
  all_chars p s = true -> all_chars p n = false -> PyStr.contains n s = false.
Proof.
  intros Hs Hn. destruct (PyStr.contains n s) eqn:C; [|reflexivity].
  apply contains_split in C as (pre & post & ->).
  rewrite !all_chars_append in Hs.
  apply andb_prop in Hs as [_ Hs]. apply andb_prop in Hs as [Hs _]. congruence.
Qed.

Lemma first_named_foreign (p : ascii -> bool) (s : string) (d : list (string * Z)) :
  Forall (fun e => all_chars p (fst e) = false) d ->
  all_chars p s = true -> first_named d s = None.
Proof.
  intros F Hs. induction F as [|[n k] d Hn F IH]; cbn [first_named];
    [reflexivity|].
  cbn [fst] in Hn. now rewrite (contains_foreign p n s Hs Hn).
Qed.

Lemma month_hits_foreign (p : ascii -> bool) (s : string) (d : list (string * Z)) :
  Forall (fun e => all_chars p (fst e) = false) d ->
  all_chars p s = true -> month_hits d s = [].
Proof.
  intros F Hs. induction F as [|[n k] d Hn F IH]; cbn [month_hits];
    [reflexivity|].
  cbn [fst] in Hn.
  destruct (search false (month_pattern n) s) as [m|] eqn:S; [|exact IH].
  exfalso. apply search_sound in S as (pre & w & post & -> & M).
  unfold month_pattern in M.
  apply matches_seqs_cons in M as (w1 & w2 & c1 & -> & M1 & _).
  apply matches_Lit in M1. subst w1.
  rewrite !all_chars_append in Hs.
  apply andb_prop in Hs as [_ Hs]. apply andb_prop in Hs as [Hs _].
  apply andb_prop in Hs as [Hs _]. congruence.
Qed.

Lemma numeric_char_lower (s : string) :
  all_chars numeric_char s = true -> PyStr.lower s = s.
Proof.
  assert (L : forall c, numeric_char c = true -> PyStr.lower_char c = c).
  { intros c. destruct c as [[] [] [] [] [] [] [] []]; vm_compute; congruence. }
  unfold PyStr.lower. induction s as [|c s IH]; cbn [all_chars PyStr.map_str];
    intros H; [reflexivity|].
  apply andb_prop in H as [Hc Hs]. now rewrite L, IH.
Qed.

(** A prompt of digits and date separators triggers none of the rules that
    read words. *)
Lemma numeric_chars_quiet (s : string) :
  all_chars numeric_char s = true -> quiet s = true.
Proof.
  intros H. unfold quiet. rewrite (numeric_char_lower s H).
  rewrite !(contains_foreign numeric_char _ s H) by reflexivity.
  rewrite (first_named_foreign numeric_char s days_of_week);
    [|repeat constructor | exact H].
  rewrite (month_hits_foreign numeric_char s month_names);
    [reflexivity | repeat constructor | exact H].
Qed.

Lemma parse_date_quiet (today : Cal.date) (prompt : string) :
  quiet prompt = true ->
  parse_date_from_prompt today prompt
  = first_rule [numeric_rule today prompt; iso_rule prompt] (default_date today).
Proof.
  unfold quiet, parse_date_from_prompt. intros Q.
  repeat (apply andb_prop in Q as [Q ?]).
  destruct (PyStr.contains "today" _); [discriminate|].
  destruct (PyStr.contains "tomorrow" _); [discriminate|].
  destruct (PyStr.contains "next week" _); [discriminate|].
  destruct (first_named days_of_week _) eqn:F; [discriminate|].
  assert (R : next_day_rule today (PyStr.lower prompt) = Ok None).
  { unfold next_day_rule.
    destruct (search false next_day_pattern (PyStr.lower prompt)) eqn:S;
      [|reflexivity].
    now apply next_day_rule_is_shadowed in S. }
  cbn [first_rule]. rewrite R, month_loop_hits.
  destruct (month_hits month_names _); [|discriminate]. reflexivity.
Qed.

Lemma digit_not_sep (c : ascii) :
  PyStr.is_digit c = true -> mem_char c "/-" = false.
Proof. destruct c as [[] [] [] [] [] [] [] []]; vm_compute; congruence. Qed.

Lemma sep_not_digit (c : ascii) :
  mem_char c "/-" = true -> PyStr.is_digit c = false.
Proof. destruct c as [[] [] [] [] [] [] [] []]; vm_compute; congruence. Qed.

(** Runs the matcher on a string whose characters are only known to be
    digits or separators. *)
Ltac regex_step :=
  cbn [search run rep_greedy rep_lazy seqs date_pattern iso_date_pattern
       between cmatch Nat.eqb Nat.pred room less option_map andb append];
  repeat match goal with
  | H : PyStr.is_digit ?c = _ |- context [PyStr.is_digit ?c] => rewrite H
  | H : mem_char ?c _ = _ |- context [mem_char ?c _] => rewrite H
  end.

Ltac not_sep H := pose proof (digit_not_sep _ H).

Lemma numeric_shape_search (ms ds : string) (sep : ascii) :
  all_chars PyStr.is_digit ms = true -> all_chars PyStr.is_digit ds = true ->
  (1 <= String.length ms <= 2)%nat -> (1 <= String.length ds <= 2)%nat ->
  mem_char sep "/-" = true ->
  search false date_pattern (ms ++ String sep ds)
  = Some [(2%nat, ds); (1%nat, ms)]
  /\ search false iso_date_pattern (ms ++ String sep ds) = None.
Proof.
  intros Dm Dd Lm Ld Hs. pose proof (sep_not_digit _ Hs).
  destruct ms as [|m1 [|m2 [|? ?]]]; cbn [String.length] in Lm; try lia;
    destruct ds as [|d1 [|d2 [|? ?]]]; cbn [String.length] in Ld; try lia;
    cbn [all_chars] in Dm, Dd;
    repeat match goal with
    | H : _ && _ = true |- _ => apply andb_prop in H as [? ?]
    end;
    repeat match goal with
    | H : PyStr.is_digit _ = true |- _ => not_sep H; revert H
    end; intros;
    split; repeat regex_step; reflexivity.
Qed.

Lemma iso_shape_search (ys ms ds : string) (s1 s2 : ascii) :
  digits 4 ys -> digits 2 ms -> digits 2 ds ->
  mem_char s1 "/-" = true -> mem_char s2 "/-" = true ->
  search false date_pattern (ys ++ String s1 (ms ++ String s2 ds))
  = Some [(3%nat, ds); (2%nat, ms); (1%nat, substring 2 2 ys)]
  /\ search false iso_date_pattern (ys ++ String s1 (ms ++ String s2 ds))
     = Some [(3%nat, ds); (2%nat, ms); (1%nat, ys)].
Proof.
  intros [Dy Ly] [Dm Lm] [Dd Ld] H1 H2.
  destruct ys as [|a [|b [|c [|d [|? ?]]]]]; try discriminate.
  destruct ms as [|m1 [|m2 [|? ?]]]; try discriminate.
  destruct ds as [|d1 [|d2 [|? ?]]]; try discriminate.
  cbn [all_chars] in Dy, Dm, Dd.
  repeat match goal with
  | H : _ && _ = true |- _ => apply andb_prop in H as [? ?]
  end.
  repeat match goal with
  | H : PyStr.is_digit _ = true |- _ => not_sep H; revert H
  end; intros.
  pose proof (sep_not_digit _ H1). pose proof (sep_not_digit _ H2).
  split; repeat regex_step; reflexivity.
Qed.

Lemma digits_numeric_chars (s : string) :
  all_chars PyStr.is_digit s = true -> all_chars numeric_char s = true.
Proof.
  apply all_chars_weaken. intros c H. unfold numeric_char. now rewrite H.
Qed.

(** X11.  A prompt that is just "M/D" or "M-D", each number written with
    one or two digits: the resolver answers that month and day of the
    reference date's own year when they are a real day of that year, also
    when that day is already past (the month-name rule would move to next
    year), and tomorrow's date otherwise. *)
Theorem X11_numeric_date_keeps_the_year (today : Cal.date) (sep : ascii)
    (ms ds : string) (m d : Z) :
  all_chars PyStr.is_digit ms = true -> (1 <= String.length ms <= 2)%nat ->
  all_chars PyStr.is_digit ds = true -> (1 <= String.length ds <= 2)%nat ->
  mem_char sep "/-" = true ->
  py_int (Some ms) = Ok m -> py_int (Some ds) = Ok d ->
  parse_date_from_prompt today (ms ++ String sep ds)
  = if real_day (Cal.year today) m d
    then Ok (fmt_ymd (Cal.year today) m d)
    else default_date today.
Proof.
  intros Dm Lm Dd Ld Hs Im Id.
  rewrite parse_date_quiet.
  2:{ apply numeric_chars_quiet. rewrite all_chars_append. cbn [all_chars].
      rewrite !digits_numeric_chars by assumption.
      unfold numeric_char. now rewrite Hs, orb_true_r. }
  destruct (numeric_shape_search _ _ sep Dm Dd Lm Ld Hs) as [S I].
  unfold numeric_rule, iso_rule. rewrite S, I.
  cbn [first_rule group Nat.eqb bind]. rewrite Im, Id. cbn [bind].
  unfold real_day.
  destruct ((1 <=? m) && (m <=? 12)); cbn [andb bind]; [|reflexivity].
  now destruct ((1 <=? d) && (d <=? Cal.last_day (Cal.year today) m)).
Qed.

Lemma X11_numeric_date_witness :
  mem_char "/" "/-" = true
  /\ parse_date_from_prompt (Cal.mkDate 2025 6 10) "1/05" = Ok "2025-01-05"
  /\ parse_date_from_prompt (Cal.mkDate 2025 6 10) "jan 5" = Ok "2026-01-05".
Proof.
  split; [reflexivity|]. split; [|vm_compute; reflexivity].
  exact (X11_numeric_date_keeps_the_year (Cal.mkDate 2025 6 10) "/" "1" "05"
           1 5 eq_refl ltac:(simpl; lia) eq_refl ltac:(simpl; lia) eq_refl
           eq_refl eq_refl).
Defined.

(** X12.  A prompt that is just an ISO date: four digits, a separator, two
    digits, a separator, two digits.  The [MM/DD] rule comes first and
    reads the last two digits of the year as the month, the month as the
    day and the day as a two-digit year: whenever that reading is a real
    day (so for every year ending in 01..12 with a month 01..12) the
    resolver returns it, not the date written.  Otherwise the ISO rule
    returns the date written when it is a real day, and else the resolver
    answers tomorrow's date. *)
Theorem X12_iso_date_is_read_as_month_day_first (today : Cal.date)
    (ys ms ds : string) (s1 s2 : ascii) (y yy m d : Z) :
  digits 4 ys -> digits 2 ms -> digits 2 ds ->
  mem_char s1 "/-" = true -> mem_char s2 "/-" = true ->
  py_int (Some ys) = Ok y -> py_int (Some (substring 2 2 ys)) = Ok yy ->
  py_int (Some ms) = Ok m -> py_int (Some ds) = Ok d ->
  parse_date_from_prompt today (ys ++ String s1 (ms ++ String s2 ds))
  = if real_day (2000 + d) yy m
    then Ok (fmt_ymd (2000 + d) yy m)
    else if real_day y m d then Ok (fmt_ymd y m d)
    else default_date today.
Proof.
  intros Dy Dm Dd H1 H2 Iy Iyy Im Id.
  rewrite parse_date_quiet.
  2:{ apply numeric_chars_quiet.
      destruct Dy as [Dy _], Dm as [Dm _], Dd as [Dd _].
      rewrite !all_chars_append. cbn [all_chars]. rewrite all_chars_append.
      cbn [all_chars]. rewrite !digits_numeric_chars by assumption.
      unfold numeric_char. now rewrite H1, H2, !orb_true_r. }
  destruct (iso_shape_search _ _ _ s1 s2 Dy Dm Dd H1 H2) as [S I].
  unfold numeric_rule, iso_rule. rewrite S, I.
  cbn [first_rule group Nat.eqb bind]. rewrite Iyy, Im, Id, Iy. cbn [bind].
  destruct Dd as [_ Ld].
  destruct ds as [|c0 ds]; [discriminate|].
  rewrite Ld. cbn [Nat.eqb bind].
  unfold real_day.
  destruct ((1 <=? yy) && (yy <=? 12)); cbn [andb bind].
  - destruct ((1 <=? m) && (m <=? Cal.last_day (2000 + d) yy));
      cbn [bind]; [reflexivity|].
    destruct ((1 <=? m) && (m <=? 12)); cbn [andb bind]; [|reflexivity].
    now destruct ((1 <=? d) && (d <=? Cal.last_day y m)).
  - destruct ((1 <=? m) && (m <=? 12)); cbn [andb bind]; [|reflexivity].
    now destruct ((1 <=? d) && (d <=? Cal.last_day y m)).
Qed.

Lemma X12_iso_date_witness :
  digits 4 "2012"
  /\ parse_date_from_prompt (Cal.mkDate 2025 6 10) "2012-03-04" = Ok "2004-12-03"
  /\ parse_date_from_prompt (Cal.mkDate 2025 6 10) "2025-06-15" = Ok "2025-06-15".
Proof.
  assert (D : forall n s, all_chars PyStr.is_digit s = true ->
                String.length s = n -> digits n s) by (intros; split; auto).
  split; [apply D; reflexivity|]. split.
  - apply (X12_iso_date_is_read_as_month_day_first (Cal.mkDate 2025 6 10)
             "2012" "03" "04" "-" "-" 2012 12 3 4);
      solve [apply D; reflexivity | reflexivity].
  - apply (X12_iso_date_is_read_as_month_day_first (Cal.mkDate 2025 6 10)
             "2025" "06" "15" "-" "-" 2025 25 6 15);
      solve [apply D; reflexivity | reflexivity].
Defined.

(** ** The regex reading of the analyser's reply *)







(** *** [str.strip] *)











(** *** [int] of a run of digits is not negative *)









(** ** The generic task *)





(** ** The regex reading, on examples *)

Example regex_reading_of_lines :
  GeminiChatAnalyzer._extract_with_regex
    ("event_name: Team lunch" ++ String newline
       ("date: 2025-06-12" ++ String newline
          ("start_time: 13:00" ++ String newline "duration: 90")))
  = Ok (mkHint (Some "Team lunch") (Some "2025-06-12") (Some "13:00") (DInt 90)).
Proof. vm_compute. reflexivity. Qed.

(** The keys are looked for anywhere: "date" inside "Update" is read as the
    date key, and the word after it as the date. *)
Example regex_reading_key_inside_a_value :
  SimplifiedGeminiAnalyzer._extract_with_regex
    ("event_name: Update meeting, start_time: null")
  = Ok (mkHint (Some "Update meeting") (Some "meeting") None (DInt 60)).
Proof. vm_compute. reflexivity. Qed.
